(** * archor: the rss package's validity predicates

    A shallow embedding of the Go package [rss] of nickolashkraus/archor and
    the properties its specification states about it.

    Two generations of the package are embedded, each in a module of its own:

    - [rss]: the package with the exported capability [IsValid] (one file with
      the element types and their [IsValid] methods, one with the helpers
      [IsValidURL] and [IsValidRFC822]);
    - [pkg_rss]: [pkg/rss/rss.go], the earlier generation with the unexported
      capability [isValid].

    Go values that the package takes from the standard library ([reflect],
    [strconv], [net/url], [time]) are modelled first, each in a module named
    after its Go package.  A call that panics in Go is a [Panics] outcome
    here, never a missing case. *)

From Stdlib Require Import ZArith List String Ascii Bool Lia.
Import ListNotations.

Open Scope string_scope.
Open Scope Z_scope.

(** ** Bytes of a Go string

    A Go [string] is a sequence of bytes; so is a [String.string]. *)

Definition byte (c : ascii) : Z := Z.of_N (N_of_ascii c).

Fixpoint bytes (s : string) : list Z :=
  match s with
  | EmptyString => []
  | String c s' => byte c :: bytes s'
  end.

Definition isDigit (c : Z) : bool := (48 <=? c) && (c <=? 57).
Definition isUpper (c : Z) : bool := (65 <=? c) && (c <=? 90).
Definition isLower (c : Z) : bool := (97 <=? c) && (c <=? 122).
Definition isAlpha (c : Z) : bool := isUpper c || isLower c.

(** ** Package reflect *)

Module reflect.

(** The kinds the package's values have.  [Invalid] is the kind of the zero
    [Value]. *)
Inductive Kind : Set :=
| Invalid
| Pointer
| String
| Struct.

(** A [reflect.Value], as far as [IsNil], [IsValid] and [Indirect] look at
    it: the zero Value, a string, a struct, a nil pointer, or a pointer to
    a value. *)
Inductive Value : Type :=
| zero
| of_string (s : string)
| of_struct
| nil_pointer
| pointer_to (elem : Value).

Definition kind (v : Value) : Kind :=
  match v with
  | zero => Invalid
  | of_string _ => String
  | of_struct => Struct
  | nil_pointer | pointer_to _ => Pointer
  end.

(** [Value.IsValid]: whether [v] represents a value; false exactly for the
    zero Value. *)
Definition IsValid (v : Value) : bool :=
  match v with
  | zero => false
  | _ => true
  end.

(** [reflect.Indirect(v)]: the value [v] points to; the zero Value for a
    nil pointer; [v] itself when [v] is not a pointer. *)
Definition Indirect (v : Value) : Value :=
  match v with
  | pointer_to e => e
  | nil_pointer => zero
  | _ => v
  end.

End reflect.

(** ** Outcomes of a Go call *)

(** The two run-time panics the package can raise: [reflect]'s
    "call of [method] on [k] Value", and the load through a nil pointer that
    a call of a value-receiver method makes. *)
Inductive panic : Set :=
| ValueError (method : string) (k : reflect.Kind)
| NilPointerDereference.

Inductive outcome (A : Type) : Type :=
| Returns (a : A)
| Panics (p : panic).

Arguments Returns {A} a.
Arguments Panics {A} p.

Definition bind {A B : Type} (x : outcome A) (k : A -> outcome B) : outcome B :=
  match x with
  | Returns a => k a
  | Panics p => Panics p
  end.

Notation "x <- c ;; k" := (bind c (fun x => k))
  (at level 61, c at next level, right associativity).

(** [Value.IsNil]: defined on chan, func, interface, map, pointer and slice
    values; on a value of any other kind, [Invalid] included, it panics with
    a [*reflect.ValueError]. *)
Definition reflect_IsNil (v : reflect.Value) : outcome bool :=
  match v with
  | reflect.nil_pointer => Returns true
  | reflect.pointer_to _ => Returns false
  | _ => Panics (ValueError "reflect.Value.IsNil" (reflect.kind v))
  end.

(** [err != nil] for an error kept as an [option]. *)
Definition notNil {E : Type} (err : option E) : bool :=
  match err with
  | Some _ => true
  | None => false
  end.

(** ** Package strconv *)

Module strconv.

(** [strconv.IntSize], the size in bits of [int] and [uint]; 64 on the
    platforms the program is built for. *)
Definition IntSize : Z := 64.

Inductive NumError : Set := ErrSyntax | ErrRange | ErrBitSize.

Definition maxUint64 : Z := 2 ^ 64 - 1.

Definition uint64 (n : Z) : Z := n mod 2 ^ 64.

(** [lower(c)]: [c | ('x' - 'X')]. *)
Definition lower (c : Z) : Z := Z.lor c 32.

(** The digit loop of [ParseUint], base 10. *)
Fixpoint digits (cs : list Z) (cutoff maxVal n : Z) : Z * option NumError :=
  match cs with
  | [] => (n, None)
  | c :: cs' =>
      let d :=
        if isDigit c then Some (c - 48)
        else if isLower (lower c) then Some (lower c - 97 + 10)
        else None in
      match d with
      | None => (0, Some ErrSyntax)
      | Some d =>
          if 10 <=? d then (0, Some ErrSyntax)
          else if cutoff <=? n then (maxVal, Some ErrRange)
          else
            let n := uint64 (n * 10) in
            let n1 := uint64 (n + d) in
            if (n1 <? n) || (maxVal <? n1) then (maxVal, Some ErrRange)
            else digits cs' cutoff maxVal n1
      end
  end.

(** [strconv.ParseUint(s, 10, bitSize)]: the value and the error ([None]
    for a nil error).  No sign is accepted, and no underscore (base 10 is
    given, not sniffed). *)
Definition ParseUint10 (s : string) (bitSize : Z) : Z * option NumError :=
  if (s =? "")%string then (0, Some ErrSyntax)
  else
    let bitSize := if bitSize =? 0 then IntSize else bitSize in
    if (bitSize <? 0) || (64 <? bitSize) then (0, Some ErrBitSize)
    else
      let cutoff := maxUint64 / 10 + 1 in
      let maxVal := uint64 (uint64 (2 ^ bitSize) - 1) in
      digits (bytes s) cutoff maxVal 0.

End strconv.

(** ** Package net/url

    [url.ParseRequestURI], reduced to what its callers in the package observe:
    whether the returned error is non-nil.  The model follows [parse] with
    [viaRequest = true] step by step, on the bytes of the raw URL. *)

Module url.

Definition mem (c : Z) (cs : list Z) : bool := existsb (Z.eqb c) cs.

(** [strings.Index] for a one-byte separator, and [strings.LastIndex]. *)
Fixpoint index (c : Z) (s : list Z) : option nat :=
  match s with
  | [] => None
  | b :: s' =>
      if b =? c then Some O
      else match index c s' with Some i => Some (S i) | None => None end
  end.

Fixpoint lastIndex (c : Z) (s : list Z) : option nat :=
  match s with
  | [] => None
  | b :: s' =>
      match lastIndex c s' with
      | Some i => Some (S i)
      | None => if b =? c then Some O else None
      end
  end.

Fixpoint hasPrefix (p s : list Z) : bool :=
  match p, s with
  | [], _ => true
  | a :: p', b :: s' => (a =? b) && hasPrefix p' s'
  | _ :: _, [] => false
  end.

(** [strings.Index(s, p)]. *)
Fixpoint indexOf (p s : list Z) : option nat :=
  if hasPrefix p s then Some O
  else match s with
       | [] => None
       | _ :: s' => match indexOf p s' with Some i => Some (S i) | None => None end
       end.

(** [stringContainsCTLByte]. *)
Definition stringContainsCTLByte (s : list Z) : bool :=
  existsb (fun b => (b <? 32) || (b =? 127)) s.

(** [getScheme]: [Some (scheme, rest)], or [None] for the error
    "missing protocol scheme". *)
Fixpoint getScheme_from (rawURL : list Z) (i : nat) (s : list Z)
  : option (list Z * list Z) :=
  match s with
  | [] => Some ([], rawURL)
  | c :: s' =>
      if isAlpha c then getScheme_from rawURL (S i) s'
      else if isDigit c || (c =? 43) || (c =? 45) || (c =? 46) then
        match i with
        | O => Some ([], rawURL)
        | S _ => getScheme_from rawURL (S i) s'
        end
      else if c =? 58 then
        match i with
        | O => None
        | S _ => Some (firstn i rawURL, s')
        end
      else Some ([], rawURL)
  end.

Definition getScheme (rawURL : list Z) : option (list Z * list Z) :=
  getScheme_from rawURL O rawURL.

Definition ishex (c : Z) : bool :=
  isDigit c || ((97 <=? c) && (c <=? 102)) || ((65 <=? c) && (c <=? 70)).

Definition unhex (c : Z) : Z :=
  if isDigit c then c - 48
  else if (97 <=? c) && (c <=? 102) then c - 97 + 10
  else if (65 <=? c) && (c <=? 70) then c - 65 + 10
  else 0.

Inductive encoding : Set :=
| encodePath
| encodeUserPassword
| encodeHost
| encodeZone.

Definition hostMode (mode : encoding) : bool :=
  match mode with
  | encodeHost | encodeZone => true
  | encodePath | encodeUserPassword => false
  end.

(** [shouldEscape(c, encodeHost)]: byte 34 is the double quote. *)
Definition shouldEscapeHost (c : Z) : bool :=
  if isAlpha c || isDigit c then false
  else if mem c (34 :: bytes "!$&'()*+,;=:[]<>") then false
  else if mem c (bytes "-_.~") then false
  else true.

(** [unescape(s, mode)] returns an error. *)
Fixpoint unescape_err (mode : encoding) (s : list Z) : bool :=
  match s with
  | [] => false
  | c :: s' =>
      if c =? 37 then
        match s' with
        | h1 :: h2 :: s'' =>
            let is25 := (h1 =? 50) && (h2 =? 53) in
            if negb (ishex h1) || negb (ishex h2) then true
            else if match mode with encodeHost => true | _ => false end
                    && (unhex h1 <? 8) && negb is25 then true
            else if match mode with encodeZone => true | _ => false end
                    && negb is25
                    && negb (Z.lor (Z.shiftl (unhex h1) 4) (unhex h2) =? 32)
                    && shouldEscapeHost (Z.lor (Z.shiftl (unhex h1) 4) (unhex h2))
                 then true
            else unescape_err mode s''
        | _ => true
        end
      else if hostMode mode && (c <? 128) && shouldEscapeHost c then true
      else unescape_err mode s'
  end.

Definition validOptionalPort (port : list Z) : bool :=
  match port with
  | [] => true
  | c :: ds => (c =? 58) && forallb isDigit ds
  end.

Definition parseHost_err (host : list Z) : bool :=
  if hasPrefix [91] host then
    match lastIndex 93 host with
    | None => true
    | Some i =>
        if negb (validOptionalPort (skipn (S i) host)) then true
        else
          match indexOf (bytes "%25") (firstn i host) with
          | Some zone =>
              unescape_err encodeHost (firstn zone host)
              || unescape_err encodeZone (skipn zone (firstn i host))
              || unescape_err encodeHost (skipn i host)
          | None => unescape_err encodeHost host
          end
    end
  else
    match lastIndex 58 host with
    | Some i =>
        if negb (validOptionalPort (skipn i host)) then true
        else unescape_err encodeHost host
    | None => unescape_err encodeHost host
    end.

Definition validUserinfo (s : list Z) : bool :=
  forallb (fun r => isAlpha r || isDigit r
                    || mem r (bytes "-._:~!$&'()*+,;=%@")) s.

Definition parseAuthority_err (authority : list Z) : bool :=
  match lastIndex 64 authority with
  | None => parseHost_err authority
  | Some i =>
      if parseHost_err (skipn (S i) authority) then true
      else
        let userinfo := firstn i authority in
        if negb (validUserinfo userinfo) then true
        else
          match index 58 userinfo with
          | None => unescape_err encodeUserPassword userinfo
          | Some j =>
              unescape_err encodeUserPassword (firstn j userinfo)
              || unescape_err encodeUserPassword (skipn (S j) userinfo)
          end
  end.

(** [parse(rawURL, true)] returns an error. *)
Definition parse_err (rawURL : list Z) : bool :=
  if stringContainsCTLByte rawURL then true
  else match rawURL with
  | [] => true                                    (* "empty url" *)
  | [42] => false                                 (* "*" *)
  | _ =>
      match getScheme rawURL with
      | None => true
      | Some (scheme, rest) =>
          let rest :=
            match index 63 rest with
            | Some q => firstn q rest
            | None => rest
            end in
          let hasScheme := negb (Nat.eqb (List.length scheme) 0) in
          if negb (hasPrefix [47] rest) then
            if hasScheme then false                (* opaque *)
            else true                              (* "invalid URI for request" *)
          else
            let authority_rest :=
              if hasScheme && hasPrefix [47; 47] rest then
                let authority := skipn 2 rest in
                match index 47 authority with
                | Some i => (Some (firstn i authority), skipn i authority)
                | None => (Some authority, [])
                end
              else (None, rest) in
            match authority_rest with
            | (Some authority, path) =>
                parseAuthority_err authority || unescape_err encodePath path
            | (None, path) => unescape_err encodePath path
            end
      end
  end.

(** [_, err := url.ParseRequestURI(rawURL)]; the result is [err != nil]. *)
Definition ParseRequestURI_err (rawURL : string) : bool :=
  parse_err (bytes rawURL).

End url.

(** ** Package time

    [time.Parse(time.RFC822, value)], reduced to whether the returned error is
    non-nil.  [time.RFC822] is the layout ["02 Jan 06 15:04 MST"]: a two-digit
    day, a short month name, a two-digit year, hour, minute and a zone
    abbreviation.  The steps below are the chunks [Parse] takes off the layout,
    in order; [None] is [errBad] or a range error. *)

Module time.

Definition RFC822 : string := "02 Jan 06 15:04 MST".

(** [getnum(s, fixed)]. *)
Definition getnum (s : list Z) (fixed : bool) : option (Z * list Z) :=
  match s with
  | c0 :: s1 =>
      if isDigit c0 then
        match s1 with
        | c1 :: s2 =>
            if isDigit c1 then Some ((c0 - 48) * 10 + (c1 - 48), s2)
            else if fixed then None else Some (c0 - 48, s1)
        | [] => if fixed then None else Some (c0 - 48, s1)
        end
      else None
  | [] => None
  end.

Fixpoint cutspace (s : list Z) : list Z :=
  match s with
  | c :: s' => if c =? 32 then cutspace s' else s
  | [] => []
  end.

(** [skip(value, " ")] and [skip(value, ":")]. *)
Definition skip_space (value : list Z) : option (list Z) :=
  match value with
  | c :: _ => if c =? 32 then Some (cutspace value) else None
  | [] => Some []
  end.

Definition skip_byte (b : Z) (value : list Z) : option (list Z) :=
  match value with
  | c :: value' => if c =? b then Some value' else None
  | [] => None
  end.

(** [match(s1, s2)]: equality ignoring the case of letters; the caller
    passes strings of equal length. *)
Fixpoint match_fold (s1 s2 : list Z) : bool :=
  match s1, s2 with
  | c1 :: s1', c2 :: s2' =>
      (if c1 =? c2 then true
       else
         let l1 := Z.lor c1 32 in
         let l2 := Z.lor c2 32 in
         (l1 =? l2) && (97 <=? l1) && (l1 <=? 122))
      && match_fold s1' s2'
  | _, _ => true
  end.

Definition shortMonthNames : list string :=
  ["Jan"; "Feb"; "Mar"; "Apr"; "May"; "Jun";
   "Jul"; "Aug"; "Sep"; "Oct"; "Nov"; "Dec"].

(** [lookup(tab, val)], counting from [i]. *)
Fixpoint lookup (tab : list string) (i : Z) (val : list Z)
  : option (Z * list Z) :=
  match tab with
  | [] => None
  | v :: tab' =>
      let n := String.length v in
      if (n <=? List.length val)%nat && match_fold (firstn n val) (bytes v)
      then Some (i, skipn n val)
      else lookup tab' (i + 1) val
  end.

(** [leadingInt] on the digits at the head of [s]: the value, the number of
    digits and the rest. *)
Fixpoint leadingInt (s : list Z) (x : Z) (n : nat) : Z * nat * list Z :=
  match s with
  | c :: s' => if isDigit c then leadingInt s' (x * 10 + (c - 48)) (S n)
               else (x, n, s)
  | [] => (x, n, [])
  end.

(** [atoi(p)] for the two bytes of a year. *)
Definition atoi (p : list Z) : option Z :=
  let '(neg, digits) :=
    match p with
    | c :: p' => if c =? 45 then (true, p')
                 else if c =? 43 then (false, p') else (false, p)
    | [] => (false, p)
    end in
  match leadingInt digits 0 O with
  | (x, _, []) => Some (if neg then - x else x)
  | (_, _, _ :: _) => None
  end.

(** [parseSignedOffset(value)]: the number of bytes of a sign and an hour
    of at most 23, or 0. *)
Definition parseSignedOffset (value : list Z) : nat :=
  match value with
  | sign :: digits =>
      if (sign =? 45) || (sign =? 43) then
        match leadingInt digits 0 O with
        | (_, O, _) => O
        | (x, S n, _) => if 23 <? x then O else S (S n)
        end
      else O
  | [] => O
  end.

Fixpoint countUpper (fuel : nat) (value : list Z) : nat :=
  match fuel, value with
  | S fuel', c :: value' => if isUpper c then S (countUpper fuel' value') else O
  | _, _ => O
  end.

(** [parseTimeZone(value)]: the length of the abbreviation, when there is
    one. *)
Definition parseTimeZone (value : list Z) : option nat :=
  if (List.length value <? 3)%nat then None
  else if url.hasPrefix (bytes "ChST") value || url.hasPrefix (bytes "MeST") value
  then Some 4%nat
  else if url.hasPrefix (bytes "GMT") value then
    match skipn 3 value with
    | [] => Some 3%nat
    | off => Some (3 + parseSignedOffset off)%nat
    end
  else match value with
  | c :: _ =>
      if (c =? 43) || (c =? 45) then
        match parseSignedOffset value with
        | O => None
        | n => Some n
        end
      else
        match countUpper 6 value with
        | 3%nat => Some 3%nat
        | 4%nat => if (nth 3 value 0 =? 84) || url.hasPrefix (bytes "WITA") value
                   then Some 4%nat else None
        | 5%nat => if nth 4 value 0 =? 84 then Some 5%nat else None
        | _ => None
        end
  | [] => None
  end.

Definition isLeap (year : Z) : bool :=
  (year mod 4 =? 0) && (negb (year mod 100 =? 0) || (year mod 400 =? 0)).

(** [daysIn(m, year)], months counted from 1. *)
Definition daysIn (m year : Z) : Z :=
  if (m =? 2) && isLeap year then 29
  else nth (Z.to_nat (m - 1)) [31; 28; 31; 30; 31; 30; 31; 31; 30; 31; 30; 31] 0.

Definition then_ {A B : Type} (x : option A) (k : A -> option B) : option B :=
  match x with Some a => k a | None => None end.

(** The chunks of the layout, in order; [Some tt] when [Parse] returns a
    nil error. *)
Definition parse_RFC822 (value : list Z) : option unit :=
  then_ (getnum value true) (fun '(day, value) =>
  then_ (skip_space value) (fun value =>
  then_ (lookup shortMonthNames 0 value) (fun '(month0, value) =>
  let month := month0 + 1 in
  then_ (skip_space value) (fun value =>
  then_ (if (List.length value <? 2)%nat then None
         else then_ (atoi (firstn 2 value)) (fun y => Some (y, skipn 2 value)))
        (fun '(y, value) =>
  let year := if 69 <=? y then y + 1900 else y + 2000 in
  then_ (skip_space value) (fun value =>
  then_ (getnum value false) (fun '(hour, value) =>
  if (hour <? 0) || (24 <=? hour) then None else
  then_ (skip_byte 58 value) (fun value =>
  then_ (getnum value true) (fun '(min, value) =>
  if (min <? 0) || (60 <=? min) then None else
  then_ (skip_space value) (fun value =>
  then_ (if url.hasPrefix (bytes "UTC") value then Some (skipn 3 value)
         else then_ (parseTimeZone value) (fun n => Some (skipn n value)))
        (fun value =>
  match value with
  | _ :: _ => None                                 (* extra text *)
  | [] =>
      if (day <? 1) || (daysIn month year <? day) then None   (* day out of range *)
      else Some tt
  end))))))))))).

(** [_, err := time.Parse(time.RFC822, value)]; the result is
    [err != nil]. *)
Definition Parse_RFC822_err (value : string) : bool :=
  match parse_RFC822 (bytes value) with
  | Some _ => false
  | None => true
  end.

End time.

(** ** Package encoding/xml *)

Module xml.

(** [xml.Name]; the field [Local] is [Local_] here. *)
Record Name : Set := { Space : string; Local_ : string }.

End xml.

(** ** Package rss: the exported capability [IsValid] *)

Module rss.

Definition RSSVERSION : string := "2.0".

(** *** Helpers *)

(** Whether [s] is a valid URL. *)
Definition IsValidURL (s : string) : bool :=
  if url.ParseRequestURI_err s then true else false.

(** Whether [s] conforms to RFC 822. *)
Definition IsValidRFC822 (s : string) : bool :=
  if time.Parse_RFC822_err s then true else false.

(** *** Scalar elements *)

Definition Version := string.
Definition Title := string.
Definition Link := string.
Definition Description := string.
Definition Language := string.
Definition Copyright := string.
Definition ManagingEditor := string.
Definition WebMaster := string.
Definition PubDate := string.
Definition LastBuildDate := string.
Definition Domain := string.
Definition Generator := string.
Definition Docs := string.
Definition TTL := string.
Definition URL := string.
Definition Width := string.
Definition Height := string.
Definition Rating := string.
Definition Name := string.
Definition Hour := Z.             (* a Go [int], only compared with constants *)
Definition Day := string.
Definition Length := string.
Definition Type_ := string.       (* the Go type [Type] *)
Definition Comments := string.
Definition Author := string.

Definition Version_IsValid (r : Version) : bool := String.eqb r RSSVERSION.
Definition Title_IsValid (r : Title) : bool := negb (String.eqb r "").
Definition Link_IsValid (r : Link) : bool := IsValidURL r.
Definition Description_IsValid (r : Description) : bool := negb (String.eqb r "").
Definition Language_IsValid (r : Language) : bool := true.
Definition Copyright_IsValid (r : Copyright) : bool := true.
Definition ManagingEditor_IsValid (r : ManagingEditor) : bool := true.
Definition WebMaster_IsValid (r : WebMaster) : bool := true.
Definition PubDate_IsValid (r : PubDate) : bool := IsValidRFC822 r.
Definition LastBuildDate_IsValid (r : LastBuildDate) : bool := IsValidRFC822 r.
Definition Domain_IsValid (r : Domain) : bool := true.
Definition Generator_IsValid (r : Generator) : bool := true.
Definition Docs_IsValid (r : Docs) : bool := true.
Definition URL_IsValid (r : URL) : bool := IsValidURL r.
Definition Rating_IsValid (r : Rating) : bool := true.
Definition Name_IsValid (r : Name) : bool := true.
Definition Day_IsValid (r : Day) : bool := true.
Definition Length_IsValid (r : Length) : bool := true.
Definition Type_IsValid (r : Type_) : bool := true.
Definition Comments_IsValid (r : Comments) : bool := true.
Definition Author_IsValid (r : Author) : bool := true.

(** [i, err := strconv.ParseUint(string(r), 10, 0); err != nil || i < 0]:
    [i] is a [uint64]. *)
Definition TTL_IsValid (r : TTL) : bool :=
  let '(i, err) := strconv.ParseUint10 r 0 in
  if notNil err || (i <? 0)
  then false
  else true.

Definition Width_IsValid (r : Width) : bool :=
  let '(i, err) := strconv.ParseUint10 r 0 in
  if notNil err || (144 <? i)
  then false
  else true.

Definition Height_IsValid (r : Height) : bool :=
  let '(i, err) := strconv.ParseUint10 r 0 in
  if notNil err || (400 <? i)
  then false
  else true.

Definition Hour_IsValid (r : Hour) : bool :=
  if (r <? 0) || (23 <? r) then false else true.

(** *** Structs

    A Go pointer [*T] is an [option T]: [None] is the nil pointer. *)

Record Category : Set := {
  Category_XMLName : xml.Name;
  Category_Domain : Domain
}.

Record Cloud : Set := {
  Cloud_XMLName : xml.Name;
  Cloud_Domain : string;
  Cloud_Port : string;
  Cloud_Path : string;
  Cloud_RegisterProcedure : string;
  Cloud_Protocol : string
}.

Record Image : Set := {
  Image_XMLName : xml.Name;
  Image_URL : URL;
  Image_Title : Title;
  Image_Link : Link;
  Image_Width : Width;
  Image_Height : Height;
  Image_Description : Description
}.

Record TextInput : Set := {
  TextInput_XMLName : xml.Name;
  TextInput_Title : Title;
  TextInput_Description : Description;
  TextInput_Name : Name;
  TextInput_Link : Link
}.

Record SkipHours : Set := {
  SkipHours_XMLName : xml.Name;
  SkipHours_Hour : list (option Hour)
}.

Record SkipDays : Set := {
  SkipDays_XMLName : xml.Name;
  SkipDays_Day : list (option Day)
}.

Record Source : Set := { Source_URL : URL }.

Record Enclosure : Set := {
  Enclosure_URL : URL;
  Enclosure_Length : Length;
  Enclosure_Type : Type_
}.

Record GUID : Set := { GUID_IsPermaLink : string }.

Record Item : Set := {
  Item_XMLName : xml.Name;
  Item_Title : Title;
  Item_Link : Link;
  Item_Description : Description;
  Item_Source : Source;
  Item_Enclosure : Enclosure;
  Item_Category : Category;
  Item_PubDate : PubDate;
  Item_GUID : GUID;
  Item_Comments : Comments;
  Item_Author : Author
}.

Record Channel : Set := {
  Channel_XMLName : xml.Name;
  Channel_Title : Title;
  Channel_Link : Link;
  Channel_Description : Description;
  Channel_Language : Language;
  Channel_Copyright : Copyright;
  Channel_ManagingEditor : ManagingEditor;
  Channel_WebMaster : WebMaster;
  Channel_PubDate : PubDate;
  Channel_LastBuildDate : LastBuildDate;
  Channel_Category : Category;
  Channel_Generator : Generator;
  Channel_Docs : Docs;
  Channel_Cloud : Cloud;
  Channel_TTL : TTL;
  Channel_Image : Image;
  Channel_Rating : Rating;
  Channel_TextInput : TextInput;
  Channel_SkipHours : SkipHours;
  Channel_SkipDays : SkipDays;
  Channel_Item : list (option Item)
}.

Record RSS : Set := {
  RSS_XMLName : xml.Name;
  RSS_Version : Version;
  RSS_Channel : option Channel
}.

(** *** Validity of the structs *)

Definition Category_IsValid (r : Category) : bool :=
  if negb (String.eqb (Category_Domain r) "")
  then Domain_IsValid (Category_Domain r)
  else true.

Definition Cloud_IsValid (r : Cloud) : bool := true.

Definition Image_IsValid (r : Image) : bool :=
  if URL_IsValid (Image_URL r)
     || Title_IsValid (Image_Title r)
     || Link_IsValid (Image_Link r)
  then false
  else Width_IsValid (Image_Width r) && Height_IsValid (Image_Height r).

Definition TextInput_IsValid (r : TextInput) : bool :=
  negb (String.eqb (TextInput_Title r) "")
  && negb (String.eqb (TextInput_Description r) "")
  && negb (String.eqb (TextInput_Name r) "")
  && negb (String.eqb (TextInput_Link r) "").

(** [h.IsValid()] on [h : *Hour]: the method has a value receiver, so the
    call loads [*h] and panics on a nil [h]. *)
Definition pHour_IsValid (h : option Hour) : outcome bool :=
  match h with
  | Some r => Returns (Hour_IsValid r)
  | None => Panics NilPointerDereference
  end.

(** [for _, h := range r.Hour { if !h.IsValid() { return false } }], then
    the [return true] after it. *)
Fixpoint SkipHours_range (hs : list (option Hour)) : outcome bool :=
  match hs with
  | [] => Returns true
  | h :: hs' =>
      ok <- pHour_IsValid h ;;
      if negb ok then Returns false else SkipHours_range hs'
  end.

Definition SkipHours_IsValid (r : SkipHours) : outcome bool :=
  if (24 <? Z.of_nat (List.length (SkipHours_Hour r)))
  then Returns false
  else SkipHours_range (SkipHours_Hour r).

Definition pDay_IsValid (d : option Day) : outcome bool :=
  match d with
  | Some r => Returns (Day_IsValid r)
  | None => Panics NilPointerDereference
  end.

Fixpoint SkipDays_range (ds : list (option Day)) : outcome bool :=
  match ds with
  | [] => Returns true
  | d :: ds' =>
      ok <- pDay_IsValid d ;;
      if negb ok then Returns false else SkipDays_range ds'
  end.

Definition SkipDays_IsValid (r : SkipDays) : outcome bool :=
  if (7 <? Z.of_nat (List.length (SkipDays_Day r)))
  then Returns false
  else SkipDays_range (SkipDays_Day r).

Definition Channel_IsValid (c : Channel) : bool :=
  negb (String.eqb (Channel_Title c) "")
  && negb (String.eqb (Channel_Link c) "")
  && negb (String.eqb (Channel_Description c) "").

Definition Item_IsValid (r : Item) : bool :=
  Title_IsValid (Item_Title r) || Description_IsValid (Item_Description r).

Definition Source_IsValid (r : Source) : bool := URL_IsValid (Source_URL r).

Definition Enclosure_IsValid (r : Enclosure) : bool :=
  URL_IsValid (Enclosure_URL r)
  && Length_IsValid (Enclosure_Length r)
  && Type_IsValid (Enclosure_Type r).

Definition GUID_IsValid (r : GUID) : bool := true.

(** *** Validity of the document

    [RSS.IsValid] walks the fields of the struct through [reflect].  What
    [v.Field(i).Interface()] yields for [i = 0, 1, 2] is a value of one of
    three dynamic types. *)

Inductive field : Set :=
| field_Name (n : xml.Name)
| field_Version (v : Version)
| field_pChannel (p : option Channel).

(** [reflect.ValueOf(r)] with [NumField] and [Field(i)]: the fields in
    declaration order. *)
Definition fields (r : RSS) : list field :=
  [field_Name (RSS_XMLName r);
   field_Version (RSS_Version r);
   field_pChannel (RSS_Channel r)].

(** The interface [RSSElement { IsValid() bool }] is satisfied by [Version]
    and by [*Channel] (the method set of a pointer type holds the methods
    with a value receiver); [xml.Name] has no such method. *)
Inductive RSSElement : Set :=
| elem_Version (v : Version)
| elem_pChannel (p : option Channel).

(** The type assertion [x.(RSSElement)] in its two-value form. *)
Definition assert_RSSElement (x : field) : option RSSElement :=
  match x with
  | field_Name _ => None
  | field_Version v => Some (elem_Version v)
  | field_pChannel p => Some (elem_pChannel p)
  end.

(** [reflect.ValueOf(t)] for the value an [RSSElement] holds. *)
Definition ValueOf (t : RSSElement) : reflect.Value :=
  match t with
  | elem_Version v => reflect.of_string v
  | elem_pChannel None => reflect.nil_pointer
  | elem_pChannel (Some _) => reflect.pointer_to reflect.of_struct
  end.

(** The body of the [for] loop over the fields.  Inside the loop [v] is
    the [reflect.Value], so [v.IsNil()] and [v.IsValid()] are the methods
    of [reflect.Value]. *)
Fixpoint RSS_IsValid_loop (fs : list field) : outcome bool :=
  match fs with
  | [] => Returns true
  | f :: fs' =>
      match assert_RSSElement f with
      | Some t =>
          let v := reflect.Indirect (ValueOf t) in
          isNil <- reflect_IsNil v ;;
          if isNil || negb (reflect.IsValid v)
          then Returns false
          else RSS_IsValid_loop fs'
      | None => RSS_IsValid_loop fs'
      end
  end.

Definition RSS_IsValid (r : RSS) : outcome bool :=
  RSS_IsValid_loop (fields r).

End rss.

(** ** Package rss, earlier generation: the unexported capability [isValid]
    ([pkg/rss/rss.go]) *)

Module pkg_rss.

Definition RSSVERSION : string := "2.0".

Definition Version := string.
Definition Title := string.
Definition Link := string.
Definition Description := string.
Definition Language := string.
Definition PubDate := string.
Definition LastBuildDate := string.
Definition Category := string.
Definition TTL := Z.

Record Image : Set := {
  Image_Url : string;
  Image_Title : string;
  Image_Link : string;
  Image_Width : string;
  Image_Height : string;
  Image_Description : string
}.

Record Cloud : Set := {
  Cloud_Domain : string;
  Cloud_Port : string;
  Cloud_Path : string;
  Cloud_RegisterProcedure : string;
  Cloud_Protocol : string
}.

Record TextInput : Set := {
  TextInput_Title : string;
  TextInput_Description : string;
  TextInput_Name : string;
  TextInput_Link : string
}.

Record Enclosure : Set := {
  Enclosure_URL : string;
  Enclosure_Length : Z;
  Enclosure_Type : string
}.

Record Item : Set := {
  Item_Title : string;
  Item_Link : string;
  Item_Description : string;
  Item_Author : string;
  Item_Category : string;
  Item_Comments : string;
  Item_Enclosure : Enclosure;
  Item_Guid : string;
  Item_PubDate : string;
  Item_Source : string
}.

Record Channel : Set := {
  Channel_XMLName : xml.Name;
  Channel_Title : Title;
  Channel_Link : Link;
  Channel_Description : Description;
  Channel_Language : Language;
  Channel_Copyright : string;
  Channel_ManagingEditor : string;
  Channel_WebMaster : string;
  Channel_PubDate : PubDate;
  Channel_LastBuildDate : LastBuildDate;
  Channel_Category : Category;
  Channel_Generator : string;
  Channel_Docs : string;
  Channel_Cloud : string;
  Channel_TTL : TTL;
  Channel_Image : Image;
  Channel_Rating : string;
  Channel_TextInput : TextInput;
  Channel_SkipHours : string;
  Channel_SkipDays : string;
  Channel_Item : list (option Item)
}.

Record RSS : Set := {
  RSS_XMLName : xml.Name;
  RSS_Version : Version;
  RSS_Channel : option Channel
}.

Definition Version_isValid (r : Version) : bool := String.eqb r RSSVERSION.
Definition Title_isValid (r : Title) : bool := negb (String.eqb r "").

Definition Link_isValid (r : Link) : bool :=
  if url.ParseRequestURI_err r then true else false.

Definition Description_isValid (r : Description) : bool := true.
Definition Language_isValid (r : Language) : bool := true.
Definition PubDate_isValid (r : PubDate) : bool := true.
Definition LastBuildDate_isValid (r : LastBuildDate) : bool := true.

Definition IsValidRFC822 (value : string) : bool :=
  if time.Parse_RFC822_err value then true else false.

Definition Channel_isValid (c : Channel) : bool :=
  negb (String.eqb (Channel_Title c) "")
  && negb (String.eqb (Channel_Link c) "")
  && negb (String.eqb (Channel_Description c) "").

Definition Image_isValid (r : Image) : bool :=
  if String.eqb (Image_Url r) ""
     || String.eqb (Image_Title r) ""
     || String.eqb (Image_Link r) ""
  then false
  else
    let '(i, err) := strconv.ParseUint10 (Image_Width r) 0 in
    if notNil err || (144 <? i)
    then false
    else
      let '(i, err) := strconv.ParseUint10 (Image_Height r) 0 in
      if notNil err || (400 <? i)
      then false
      else true.

Definition Cloud_isValid (r : Cloud) : bool := true.

(** [TTL] is an [int] here. *)
Definition TTL_isValid (r : TTL) : bool := 0 <? r.

Definition TextInput_isValid (r : TextInput) : bool :=
  negb (String.eqb (TextInput_Title r) "")
  && negb (String.eqb (TextInput_Description r) "")
  && negb (String.eqb (TextInput_Name r) "")
  && negb (String.eqb (TextInput_Link r) "").

(** *** Validity of the document *)

Inductive field : Set :=
| field_Name (n : xml.Name)
| field_Version (v : Version)
| field_pChannel (p : option Channel).

Definition fields (r : RSS) : list field :=
  [field_Name (RSS_XMLName r);
   field_Version (RSS_Version r);
   field_pChannel (RSS_Channel r)].

Inductive RSSElement : Set :=
| elem_Version (v : Version)
| elem_pChannel (p : option Channel).

Definition assert_RSSElement (x : field) : option RSSElement :=
  match x with
  | field_Name _ => None
  | field_Version v => Some (elem_Version v)
  | field_pChannel p => Some (elem_pChannel p)
  end.

(** [t == nil] for an interface value [t]: true only when [t] holds no
    dynamic type.  An interface holding a nil [*Channel] is not nil. *)
Definition is_nil_interface (t : RSSElement) : bool := false.

(** [t.isValid()], dispatched on the dynamic type; through a [*Channel] the
    value-receiver method loads the pointee. *)
Definition RSSElement_isValid (t : RSSElement) : outcome bool :=
  match t with
  | elem_Version v => Returns (Version_isValid v)
  | elem_pChannel (Some c) => Returns (Channel_isValid c)
  | elem_pChannel None => Panics NilPointerDereference
  end.

Fixpoint RSS_isValid_loop (fs : list field) : outcome bool :=
  match fs with
  | [] => Returns true
  | f :: fs' =>
      match assert_RSSElement f with
      | Some t =>
          if is_nil_interface t then Returns false
          else
            ok <- RSSElement_isValid t ;;
            if negb ok then Returns false else RSS_isValid_loop fs'
      | None => RSS_isValid_loop fs'
      end
  end.

Definition RSS_isValid (r : RSS) : outcome bool :=
  RSS_isValid_loop (fields r).

End pkg_rss.

(** ** Sample documents *)

Module samples.

Definition name (local : string) : xml.Name :=
  {| xml.Space := ""; xml.Local_ := local |}.

Definition noName : xml.Name := name "".

Definition noCategory : rss.Category :=
  {| rss.Category_XMLName := noName; rss.Category_Domain := "" |}.

Definition noCloud : rss.Cloud :=
  {| rss.Cloud_XMLName := noName; rss.Cloud_Domain := ""; rss.Cloud_Port := "";
     rss.Cloud_Path := ""; rss.Cloud_RegisterProcedure := "";
     rss.Cloud_Protocol := "" |}.

(** An image with the three required sub-elements and the given width and
    height. *)
Definition image (width height : string) : rss.Image :=
  {| rss.Image_XMLName := name "image";
     rss.Image_URL := "http://example.com/logo.png";
     rss.Image_Title := "T";
     rss.Image_Link := "http://example.com";
     rss.Image_Width := width;
     rss.Image_Height := height;
     rss.Image_Description := "" |}.

Definition noImage : rss.Image :=
  {| rss.Image_XMLName := noName; rss.Image_URL := ""; rss.Image_Title := "";
     rss.Image_Link := ""; rss.Image_Width := ""; rss.Image_Height := "";
     rss.Image_Description := "" |}.

Definition noTextInput : rss.TextInput :=
  {| rss.TextInput_XMLName := noName; rss.TextInput_Title := "";
     rss.TextInput_Description := ""; rss.TextInput_Name := "";
     rss.TextInput_Link := "" |}.

Definition skipHours (hs : list (option rss.Hour)) : rss.SkipHours :=
  {| rss.SkipHours_XMLName := name "skipHours"; rss.SkipHours_Hour := hs |}.

Definition noSkipDays : rss.SkipDays :=
  {| rss.SkipDays_XMLName := noName; rss.SkipDays_Day := [] |}.

(** What decoding
    [<channel><title>T</title><link>http://x.com</link><description>D</description></channel>]
    yields, with [ttl] and [image] for the optional [<ttl>] and [<image>]. *)
Definition channelWith (ttl : rss.TTL) (image : rss.Image) : rss.Channel :=
  {| rss.Channel_XMLName := name "channel";
     rss.Channel_Title := "T";
     rss.Channel_Link := "http://x.com";
     rss.Channel_Description := "D";
     rss.Channel_Language := "";
     rss.Channel_Copyright := "";
     rss.Channel_ManagingEditor := "";
     rss.Channel_WebMaster := "";
     rss.Channel_PubDate := "";
     rss.Channel_LastBuildDate := "";
     rss.Channel_Category := noCategory;
     rss.Channel_Generator := "";
     rss.Channel_Docs := "";
     rss.Channel_Cloud := noCloud;
     rss.Channel_TTL := ttl;
     rss.Channel_Image := image;
     rss.Channel_Rating := "";
     rss.Channel_TextInput := noTextInput;
     rss.Channel_SkipHours := skipHours [];
     rss.Channel_SkipDays := noSkipDays;
     rss.Channel_Item := [] |}.

Definition channel : rss.Channel := channelWith "" noImage.

(** The minimal valid document of the specification, decoded. *)
Definition minimal : rss.RSS :=
  {| rss.RSS_XMLName := name "rss";
     rss.RSS_Version := "2.0";
     rss.RSS_Channel := Some channel |}.

(** [<rss version="2.0"></rss>], decoded: no channel. *)
Definition noChannel (version : string) : rss.RSS :=
  {| rss.RSS_XMLName := name "rss";
     rss.RSS_Version := version;
     rss.RSS_Channel := None |}.

(** The zero value [RSS{}]. *)
Definition zeroRSS : rss.RSS :=
  {| rss.RSS_XMLName := noName; rss.RSS_Version := ""; rss.RSS_Channel := None |}.

(** The same documents for the earlier generation. *)
Definition noChannel0 (version : string) : pkg_rss.RSS :=
  {| pkg_rss.RSS_XMLName := name "rss";
     pkg_rss.RSS_Version := version;
     pkg_rss.RSS_Channel := None |}.

Definition noImage0 : pkg_rss.Image :=
  {| pkg_rss.Image_Url := ""; pkg_rss.Image_Title := ""; pkg_rss.Image_Link := "";
     pkg_rss.Image_Width := ""; pkg_rss.Image_Height := "";
     pkg_rss.Image_Description := "" |}.

Definition noTextInput0 : pkg_rss.TextInput :=
  {| pkg_rss.TextInput_Title := ""; pkg_rss.TextInput_Description := "";
     pkg_rss.TextInput_Name := ""; pkg_rss.TextInput_Link := "" |}.

Definition channel0 : pkg_rss.Channel :=
  {| pkg_rss.Channel_XMLName := name "channel";
     pkg_rss.Channel_Title := "T";
     pkg_rss.Channel_Link := "http://x.com";
     pkg_rss.Channel_Description := "D";
     pkg_rss.Channel_Language := "";
     pkg_rss.Channel_Copyright := "";
     pkg_rss.Channel_ManagingEditor := "";
     pkg_rss.Channel_WebMaster := "";
     pkg_rss.Channel_PubDate := "";
     pkg_rss.Channel_LastBuildDate := "";
     pkg_rss.Channel_Category := "";
     pkg_rss.Channel_Generator := "";
     pkg_rss.Channel_Docs := "";
     pkg_rss.Channel_Cloud := "";
     pkg_rss.Channel_TTL := 0;
     pkg_rss.Channel_Image := noImage0;
     pkg_rss.Channel_Rating := "";
     pkg_rss.Channel_TextInput := noTextInput0;
     pkg_rss.Channel_SkipHours := "";
     pkg_rss.Channel_SkipDays := "";
     pkg_rss.Channel_Item := [] |}.

Definition minimal0 : pkg_rss.RSS :=
  {| pkg_rss.RSS_XMLName := name "rss";
     pkg_rss.RSS_Version := "2.0";
     pkg_rss.RSS_Channel := Some channel0 |}.

Definition image0 (width height : string) : pkg_rss.Image :=
  {| pkg_rss.Image_Url := "http://example.com/logo.png";
     pkg_rss.Image_Title := "T";
     pkg_rss.Image_Link := "http://example.com";
     pkg_rss.Image_Width := width;
     pkg_rss.Image_Height := height;
     pkg_rss.Image_Description := "" |}.

(** An item with the given title, description, link and publication date. *)
Definition item (title description link pubDate : string) : rss.Item :=
  {| rss.Item_XMLName := name "item";
     rss.Item_Title := title;
     rss.Item_Link := link;
     rss.Item_Description := description;
     rss.Item_Source := {| rss.Source_URL := "" |};
     rss.Item_Enclosure :=
       {| rss.Enclosure_URL := ""; rss.Enclosure_Length := "";
          rss.Enclosure_Type := "" |};
     rss.Item_Category := noCategory;
     rss.Item_PubDate := pubDate;
     rss.Item_GUID := {| rss.GUID_IsPermaLink := "" |};
     rss.Item_Comments := "";
     rss.Item_Author := "" |}.

(** [n] pointers to the hour [h]. *)
Definition hours (n : nat) (h : rss.Hour) : list (option rss.Hour) :=
  repeat (Some h) n.

End samples.

(** The number a string of decimal digits denotes, continuing from [n]. *)
Fixpoint decimal_from (n : Z) (cs : list Z) : Z :=
  match cs with
  | [] => n
  | c :: cs' => decimal_from (n * 10 + (c - 48)) cs'
  end.

Definition decimal (s : string) : Z := decimal_from 0 (bytes s).

(** A non-empty string of decimal digits. *)
Definition numeral (s : string) : bool :=
  negb (String.eqb s "") && forallb isDigit (bytes s).

(** The hours the specification allows in [<skipHours>]. *)
Definition inRange (h : rss.Hour) : Prop := 0 <= h <= 23.

(** A pointer that is not nil. *)
Definition isSome {A : Type} (p : option A) : bool :=
  match p with
  | Some _ => true
  | None => false
  end.

(** A pointer to an hour the specification allows. *)
Definition validHour (h : option rss.Hour) : Prop :=
  exists v, h = Some v /\ inRange v.

(** The bytes of a plain host name: letters, digits, hyphen and dot. *)
Definition hostByte (c : Z) : bool :=
  isAlpha c || isDigit c || (c =? 45) || (c =? 46).

(** What [url.parse] does after the control bytes, the empty string and
    "*" are out of the way. *)
Definition parse_tail (rawURL : list Z) : bool :=
  match url.getScheme rawURL with
  | None => true
  | Some (scheme, rest) =>
      let rest :=
        match url.index 63 rest with
        | Some q => firstn q rest
        | None => rest
        end in
      let hasScheme := negb (Nat.eqb (List.length scheme) 0) in
      if negb (url.hasPrefix [47] rest) then
        if hasScheme then false else true
      else
        let authority_rest :=
          if hasScheme && url.hasPrefix [47; 47] rest then
            let authority := skipn 2 rest in
            match url.index 47 authority with
            | Some i => (Some (firstn i authority), skipn i authority)
            | None => (Some authority, [])
            end
          else (None, rest) in
        match authority_rest with
        | (Some authority, path) =>
            url.parseAuthority_err authority || url.unescape_err url.encodePath path
        | (None, path) => url.unescape_err url.encodePath path
        end
  end.

(** A decimal digit as a byte of a string, and a number below 100 in two
    digits. *)
Definition digit (n : Z) : ascii := ascii_of_N (Z.to_N (48 + n)).

Definition two (n : Z) : string :=
  String (digit (n / 10)) (String (digit (n mod 10)) "").

(** What [Time.Format(time.RFC822)] prints for a time in UTC: day of the
    month, short month name ([month] counted from 0), year of the century,
    hour and minute, and the zone abbreviation. *)
Definition Format_RFC822_UTC (day : Z) (month : nat) (yy hour min : Z) : string :=
  (two day ++ " " ++ nth month time.shortMonthNames "" ++ " " ++ two yy ++ " "
   ++ two hour ++ ":" ++ two min ++ " UTC")%string.

(** * Properties *)

(** ** The document-level walk *)

(** In the exported generation the walk reaches the [Version] field first
    among the fields that are [RSSElement]s.  Its [reflect.Value] has kind
    [String], on which [IsNil] panics: no document gets a verdict. *)
Lemma RSS_IsValid_panics (r : rss.RSS) :
  rss.RSS_IsValid r = Panics (ValueError "reflect.Value.IsNil" reflect.String).
Proof. destruct r as [n v c]. reflexivity. Qed.

(** The earlier generation calls the element's own [isValid]: the version
    decides first, then the channel, whose nil pointer is dereferenced. *)
Lemma RSS_isValid_unfold (r : pkg_rss.RSS) :
  pkg_rss.RSS_isValid r =
    if pkg_rss.Version_isValid (pkg_rss.RSS_Version r) then
      match pkg_rss.RSS_Channel r with
      | Some c => Returns (pkg_rss.Channel_isValid c)
      | None => Panics NilPointerDereference
      end
    else Returns false.
Proof.
  destruct r as [n v c].
  unfold pkg_rss.RSS_isValid; simpl.
  destruct (pkg_rss.Version_isValid v); simpl; [|reflexivity].
  destruct c as [c|]; simpl; [|reflexivity].
  destruct (pkg_rss.Channel_isValid c); reflexivity.
Qed.

Lemma RSS_isValid_other_version (r : pkg_rss.RSS) :
  pkg_rss.RSS_Version r <> "2.0" -> pkg_rss.RSS_isValid r = Returns false.
Proof.
  intros Hv. rewrite RSS_isValid_unfold.
  unfold pkg_rss.Version_isValid, pkg_rss.RSSVERSION.
  apply String.eqb_neq in Hv. rewrite Hv. reflexivity.
Qed.

(** C1.  The validation engine is to return true exactly for the documents
    whose required elements are present and whose present elements satisfy
    their rules.  On the minimal valid document of the specification the
    exported [RSS.IsValid] panics instead of returning true, although the
    version and the channel are valid on their own, and it returns true for
    no document at all; the earlier [RSS.isValid] returns true there. *)
Theorem RSS_IsValid_minimal_document :
  rss.RSS_IsValid samples.minimal
    = Panics (ValueError "reflect.Value.IsNil" reflect.String)
  /\ rss.Channel_IsValid samples.channel = true
  /\ rss.Version_IsValid (rss.RSS_Version samples.minimal) = true
  /\ (forall r, rss.RSS_IsValid r <> Returns true)
  /\ pkg_rss.RSS_isValid samples.minimal0 = Returns true.
Proof.
  repeat split; try reflexivity.
  intros r. rewrite RSS_IsValid_panics. discriminate.
Qed.

(** C2.  Validity is to be total: a document whose channel pointer is nil is
    to get the verdict false.  [RSS.IsValid] panics on it in both
    generations (on [reflect.Value.IsNil] at the version in the exported one,
    on the nil [*Channel] in the earlier one); the exported one also panics
    on the zero value, and [SkipHours.IsValid] panics on a nil [*Hour]. *)
Theorem RSS_IsValid_nil_channel :
  rss.RSS_IsValid (samples.noChannel "2.0")
    = Panics (ValueError "reflect.Value.IsNil" reflect.String)
  /\ rss.RSS_IsValid samples.zeroRSS
    = Panics (ValueError "reflect.Value.IsNil" reflect.String)
  /\ pkg_rss.RSS_isValid (samples.noChannel0 "2.0") = Panics NilPointerDereference
  /\ rss.SkipHours_IsValid (samples.skipHours [None]) = Panics NilPointerDereference.
Proof. repeat split; reflexivity. Qed.

(** C3.  A document whose version is not "2.0" is to get the verdict false.
    The exported [RSS.IsValid] panics on version "1.0", whatever the channel,
    although [Version.IsValid] is false there, and it returns false for no
    document at all; the earlier generation returns false for every version
    but "2.0". *)
Theorem RSS_IsValid_version_1_0 :
  (forall n c,
      rss.RSS_IsValid
        {| rss.RSS_XMLName := n; rss.RSS_Version := "1.0"; rss.RSS_Channel := c |}
      = Panics (ValueError "reflect.Value.IsNil" reflect.String))
  /\ rss.Version_IsValid "1.0" = false
  /\ (forall r, rss.RSS_IsValid r <> Returns false)
  /\ (forall r,
        pkg_rss.RSS_Version r = "2.0" \/ pkg_rss.RSS_isValid r = Returns false).
Proof.
  split; [|split; [|split]].
  - intros n c. apply RSS_IsValid_panics.
  - reflexivity.
  - intros r. rewrite RSS_IsValid_panics. discriminate.
  - intros r. destruct (string_dec (pkg_rss.RSS_Version r) "2.0") as [E|N].
    + left. exact E.
    + right. apply RSS_isValid_other_version. exact N.
Qed.

(** ** Unsigned decimal numerals *)

Lemma isDigit_bounds (c : Z) : isDigit c = true -> 0 <= c - 48 <= 9.
Proof. unfold isDigit. rewrite andb_true_iff, !Z.leb_le. lia. Qed.

Lemma decimal_from_ge (cs : list Z) :
  forall n, 0 <= n -> forallb isDigit cs = true -> n <= decimal_from n cs.
Proof.
  induction cs as [|c cs IH]; simpl; intros n Hn Hd; [lia|].
  apply andb_true_iff in Hd. destruct Hd as [Hc Hcs].
  apply isDigit_bounds in Hc.
  specialize (IH (n * 10 + (c - 48)) ltac:(lia) Hcs). lia.
Qed.

(** What the digit loop computes: the number, when the bytes are digits and
    the number is at most [maxVal]; an error otherwise. *)
Lemma digits_spec (maxVal : Z) (cs : list Z) :
  maxVal <= strconv.maxUint64 ->
  forall n, 0 <= n <= maxVal ->
  strconv.digits cs (strconv.maxUint64 / 10 + 1) maxVal n =
    (decimal_from n cs, None)
    /\ forallb isDigit cs = true /\ decimal_from n cs <= maxVal
  \/ (exists v e,
        strconv.digits cs (strconv.maxUint64 / 10 + 1) maxVal n = (v, Some e))
     /\ (forallb isDigit cs = false \/ maxVal < decimal_from n cs).
Proof.
  intros Hmax.
  change (strconv.maxUint64 / 10 + 1) with 1844674407370955162.
  assert (Hm : strconv.maxUint64 = 18446744073709551615) by reflexivity.
  induction cs as [|c cs IH]; intros n Hn; simpl.
  - left. repeat split. lia.
  - destruct (isDigit c) eqn:Hc; simpl.
    + pose proof (isDigit_bounds c Hc) as Hd.
      destruct (10 <=? c - 48) eqn:H10; [apply Z.leb_le in H10; lia|].
      assert (Hge : forallb isDigit cs = true ->
                    n * 10 + (c - 48) <= decimal_from (n * 10 + (c - 48)) cs)
        by (apply decimal_from_ge; lia).
      destruct (1844674407370955162 <=? n) eqn:Hcut.
      * apply Z.leb_le in Hcut. right. split; [eauto|].
        destruct (forallb isDigit cs); [right|left; reflexivity].
        specialize (Hge eq_refl). lia.
      * apply Z.leb_gt in Hcut.
        unfold strconv.uint64.
        rewrite (Z.mod_small (n * 10)) by lia.
        destruct (Z_lt_le_dec (n * 10 + (c - 48)) (2 ^ 64)) as [Hfit|Hwrap].
        -- rewrite (Z.mod_small (n * 10 + (c - 48))) by lia.
           destruct (n * 10 + (c - 48) <? n * 10) eqn:Hlt;
             [apply Z.ltb_lt in Hlt; lia|]. simpl.
           destruct (maxVal <? n * 10 + (c - 48)) eqn:Hov.
           ++ apply Z.ltb_lt in Hov. right. split; [eauto|].
              destruct (forallb isDigit cs); [right|left; reflexivity].
              specialize (Hge eq_refl). lia.
           ++ apply Z.ltb_ge in Hov.
              apply (IH (n * 10 + (c - 48))). lia.
        -- assert (Hn1 : (n * 10 + (c - 48)) mod 2 ^ 64
                         = n * 10 + (c - 48) - 2 ^ 64).
           { symmetry. apply (Z.mod_unique _ _ 1); lia. }
           rewrite Hn1.
           destruct (n * 10 + (c - 48) - 2 ^ 64 <? n * 10) eqn:Hlt;
             [|apply Z.ltb_ge in Hlt; lia]. simpl.
           right. split; [eauto|].
           destruct (forallb isDigit cs); [right|left; reflexivity].
           specialize (Hge eq_refl). lia.
    + right. split; [|left; reflexivity].
      destruct (isLower (strconv.lower c)) eqn:Hl.
      * unfold isLower in Hl. apply andb_true_iff in Hl.
        rewrite !Z.leb_le in Hl.
        destruct (10 <=? strconv.lower c - 97 + 10) eqn:H10; [eauto|].
        apply Z.leb_gt in H10. lia.
      * eauto.
Qed.

(** [strconv.ParseUint(s, 10, 0)] succeeds exactly on the numerals of at
    most [2^64 - 1], with the number they denote. *)
Lemma ParseUint10_spec (s : string) :
  strconv.ParseUint10 s 0 = (decimal s, None)
    /\ numeral s = true /\ 0 <= decimal s <= strconv.maxUint64
  \/ (exists v e, strconv.ParseUint10 s 0 = (v, Some e))
     /\ (numeral s = false \/ strconv.maxUint64 < decimal s).
Proof.
  unfold strconv.ParseUint10, numeral, decimal.
  destruct (String.eqb s "") eqn:He; simpl.
  - right. split; [eauto|left; reflexivity].
  - change (strconv.uint64 (strconv.uint64 (2 ^ strconv.IntSize) - 1))
      with strconv.maxUint64.
    destruct (digits_spec strconv.maxUint64 (bytes s) (Z.le_refl _) 0)
      as [(E & Hd & Hv)|(E & H)].
    + unfold strconv.maxUint64. lia.
    + left. repeat split; try assumption.
      apply (decimal_from_ge (bytes s) 0); [lia|assumption].
    + right. split; assumption.
Qed.

(** A bounded-integer check [err != nil || i > bound] accepts exactly the
    numerals of at most [bound]. *)
Lemma bounded_uint_check (s : string) (bound : Z) :
  0 <= bound <= strconv.maxUint64 ->
  (let '(i, err) := strconv.ParseUint10 s 0 in
   if notNil err || (bound <? i)
   then false else true)
  = numeral s && (decimal s <=? bound).
Proof.
  intros Hb.
  destruct (ParseUint10_spec s) as [(E & Hn & Hv)|((v & e & E) & H)]; rewrite E; simpl.
  - rewrite Hn. simpl. destruct (bound <? decimal s) eqn:Hlt.
    + apply Z.ltb_lt in Hlt. symmetry. apply Z.leb_gt. lia.
    + apply Z.ltb_ge in Hlt. symmetry. apply Z.leb_le. lia.
  - destruct H as [Hn|Hv]; [rewrite Hn; reflexivity|].
    symmetry. apply andb_false_iff. right. apply Z.leb_gt. lia.
Qed.

Lemma Width_IsValid_spec (r : rss.Width) :
  rss.Width_IsValid r = numeral r && (decimal r <=? 144).
Proof. apply bounded_uint_check. unfold strconv.maxUint64. lia. Qed.

Lemma Height_IsValid_spec (r : rss.Height) :
  rss.Height_IsValid r = numeral r && (decimal r <=? 400).
Proof. apply bounded_uint_check. unfold strconv.maxUint64. lia. Qed.

(** [TTL.IsValid] accepts every numeral that fits 64 bits, zero included:
    [i < 0] never holds. *)
Lemma TTL_IsValid_spec (r : rss.TTL) :
  rss.TTL_IsValid r = numeral r && (decimal r <=? strconv.maxUint64).
Proof.
  unfold rss.TTL_IsValid.
  destruct (ParseUint10_spec r) as [(E & Hn & Hv)|((v & e & E) & H)]; rewrite E; simpl.
  - rewrite Hn. simpl.
    destruct (decimal r <? 0) eqn:Hlt; [apply Z.ltb_lt in Hlt; lia|].
    symmetry. apply Z.leb_le. lia.
  - destruct H as [Hn|Hv]; [rewrite Hn; reflexivity|].
    symmetry. apply andb_false_iff. right. apply Z.leb_gt. lia.
Qed.

(** ** Images *)

(** An image with a title is rejected before its width and height are
    looked at: the guard on the required sub-elements fires when one of them
    IS valid. *)
Lemma Image_IsValid_titled n u c t l w h d :
  rss.Image_IsValid
    {| rss.Image_XMLName := n; rss.Image_URL := u; rss.Image_Title := String c t;
       rss.Image_Link := l; rss.Image_Width := w; rss.Image_Height := h;
       rss.Image_Description := d |} = false.
Proof.
  unfold rss.Image_IsValid; simpl.
  destruct (rss.URL_IsValid u); reflexivity.
Qed.

(** What the exported [Image.IsValid] accepts: no valid URL, no title, no
    valid link, and a width and a height within bounds. *)
Lemma Image_IsValid_unfold (r : rss.Image) :
  rss.Image_IsValid r
  = negb (rss.URL_IsValid (rss.Image_URL r))
    && String.eqb (rss.Image_Title r) ""
    && negb (rss.Link_IsValid (rss.Image_Link r))
    && (numeral (rss.Image_Width r) && (decimal (rss.Image_Width r) <=? 144))
    && (numeral (rss.Image_Height r) && (decimal (rss.Image_Height r) <=? 400)).
Proof.
  unfold rss.Image_IsValid, rss.Title_IsValid.
  rewrite Width_IsValid_spec, Height_IsValid_spec.
  destruct (rss.URL_IsValid (rss.Image_URL r)); simpl; [reflexivity|].
  destruct (String.eqb (rss.Image_Title r) ""); simpl; [|reflexivity].
  destruct (rss.Link_IsValid (rss.Image_Link r)); simpl; [reflexivity|].
  rewrite andb_assoc. reflexivity.
Qed.

(** The earlier [Image.isValid]: URL, title and link non-empty, and a width
    and a height within bounds. *)
Lemma Image_isValid_unfold (r : pkg_rss.Image) :
  pkg_rss.Image_isValid r
  = negb (String.eqb (pkg_rss.Image_Url r) "")
    && negb (String.eqb (pkg_rss.Image_Title r) "")
    && negb (String.eqb (pkg_rss.Image_Link r) "")
    && (numeral (pkg_rss.Image_Width r) && (decimal (pkg_rss.Image_Width r) <=? 144))
    && (numeral (pkg_rss.Image_Height r) && (decimal (pkg_rss.Image_Height r) <=? 400)).
Proof.
  unfold pkg_rss.Image_isValid.
  destruct (String.eqb (pkg_rss.Image_Url r) ""); simpl; [reflexivity|].
  destruct (String.eqb (pkg_rss.Image_Title r) ""); simpl; [reflexivity|].
  destruct (String.eqb (pkg_rss.Image_Link r) ""); simpl; [reflexivity|].
  pose proof (bounded_uint_check (pkg_rss.Image_Width r) 144) as Hw.
  pose proof (bounded_uint_check (pkg_rss.Image_Height r) 400) as Hh.
  unfold strconv.maxUint64 in Hw, Hh.
  specialize (Hw ltac:(lia)). specialize (Hh ltac:(lia)).
  destruct (strconv.ParseUint10 (pkg_rss.Image_Width r) 0) as [i err].
  rewrite <- Hw.
  destruct (notNil err || (144 <? i));
    simpl; [reflexivity|].
  destruct (strconv.ParseUint10 (pkg_rss.Image_Height r) 0) as [j err'].
  rewrite <- Hh. reflexivity.
Qed.

(** An image whose width is the empty string is rejected too, whatever the
    guard says. *)
Lemma Image_IsValid_no_width n u t l h d :
  rss.Image_IsValid
    {| rss.Image_XMLName := n; rss.Image_URL := u; rss.Image_Title := t;
       rss.Image_Link := l; rss.Image_Width := ""; rss.Image_Height := h;
       rss.Image_Description := d |} = false.
Proof.
  unfold rss.Image_IsValid; simpl.
  destruct (rss.URL_IsValid u || rss.Title_IsValid t || rss.Link_IsValid l);
    reflexivity.
Qed.

(** An image without a width is rejected by the earlier generation too. *)
Lemma Image_isValid_no_width u t l h d :
  pkg_rss.Image_isValid
    {| pkg_rss.Image_Url := u; pkg_rss.Image_Title := t; pkg_rss.Image_Link := l;
       pkg_rss.Image_Width := ""; pkg_rss.Image_Height := h;
       pkg_rss.Image_Description := d |} = false.
Proof. rewrite Image_isValid_unfold. simpl. rewrite !andb_false_r. reflexivity. Qed.

(** C4.  An absent optional sub-element is not to invalidate its container,
    a present invalid one is; an image with valid URL, title and link and no
    width or height is to be valid.  [Image.IsValid] returns false on that
    image, in both generations: the empty width fails [ParseUint], whatever
    the other fields are, and in the exported generation every image with a
    title is rejected.  In the other direction a channel stays valid with an
    image of width "999" or with the TTL "abc". *)
Theorem Image_IsValid_absent_width_height :
  rss.Image_IsValid (samples.image "" "") = false
  /\ pkg_rss.Image_isValid (samples.image0 "" "") = false
  /\ rss.Width_IsValid "" = false
  /\ rss.Height_IsValid "" = false
  /\ (forall n u t l h d,
        rss.Image_IsValid
          {| rss.Image_XMLName := n; rss.Image_URL := u; rss.Image_Title := t;
             rss.Image_Link := l; rss.Image_Width := ""; rss.Image_Height := h;
             rss.Image_Description := d |} = false)
  /\ (forall u t l h d,
        pkg_rss.Image_isValid
          {| pkg_rss.Image_Url := u; pkg_rss.Image_Title := t;
             pkg_rss.Image_Link := l; pkg_rss.Image_Width := "";
             pkg_rss.Image_Height := h; pkg_rss.Image_Description := d |} = false)
  /\ rss.Image_IsValid (samples.image "999" "31") = false
  /\ rss.Channel_IsValid (samples.channelWith "" (samples.image "999" "31")) = true
  /\ rss.TTL_IsValid "abc" = false
  /\ rss.Channel_IsValid (samples.channelWith "abc" samples.noImage) = true.
Proof.
  repeat split; try reflexivity.
  - intros. apply Image_IsValid_no_width.
  - intros. apply Image_isValid_no_width.
Qed.

(** C9.  With valid URL, title and link, width "144" and height "400" are to
    make the image valid, "145", "401" and non-numeric values invalid.
    [Width.IsValid] and [Height.IsValid] accept exactly the numerals of at
    most 144 and 400, and the earlier [Image.isValid] gives the five verdicts
    when width and height are both given (and false when one of them is
    missing); the exported [Image.IsValid]
    returns false on every image with a title, the one with width "144" and
    height "400" included. *)
Theorem Image_IsValid_bounds :
  rss.Image_IsValid (samples.image "144" "400") = false
  /\ (forall n u c t l w h d,
        rss.Image_IsValid
          {| rss.Image_XMLName := n; rss.Image_URL := u;
             rss.Image_Title := String c t; rss.Image_Link := l;
             rss.Image_Width := w; rss.Image_Height := h;
             rss.Image_Description := d |} = false)
  /\ (forall w, rss.Width_IsValid w = numeral w && (decimal w <=? 144))
  /\ (forall h, rss.Height_IsValid h = numeral h && (decimal h <=? 400))
  /\ map rss.Width_IsValid ["144"; "145"; "abc"] = [true; false; false]
  /\ map rss.Height_IsValid ["400"; "401"; "abc"] = [true; false; false]
  /\ map (fun wh => pkg_rss.Image_isValid (samples.image0 (fst wh) (snd wh)))
         [("144", "400"); ("145", "400"); ("144", "401"); ("abc", "400");
          ("144", "abc"); ("144", ""); ("", "400")]
     = [true; false; false; false; false; false; false].
Proof.
  repeat split; try reflexivity.
  - intros. apply Image_IsValid_titled.
  - intros. apply Width_IsValid_spec.
  - intros. apply Height_IsValid_spec.
Qed.

(** ** Items *)

(** C5.  The validity of an item is (title non-empty or description
    non-empty), and no other field of the item has a say. *)
Theorem Item_IsValid_title_or_description :
  (forall r,
      rss.Item_IsValid r
      = negb (String.eqb (rss.Item_Title r) "")
        || negb (String.eqb (rss.Item_Description r) ""))
  /\ (forall r,
        rss.Item_IsValid r = true
        <-> rss.Item_Title r <> "" \/ rss.Item_Description r <> "")
  /\ (forall t d n l s e c p g cm a n' l' s' e' c' p' g' cm' a',
        rss.Item_IsValid
          {| rss.Item_XMLName := n; rss.Item_Title := t; rss.Item_Link := l;
             rss.Item_Description := d; rss.Item_Source := s;
             rss.Item_Enclosure := e; rss.Item_Category := c;
             rss.Item_PubDate := p; rss.Item_GUID := g;
             rss.Item_Comments := cm; rss.Item_Author := a |}
        = rss.Item_IsValid
          {| rss.Item_XMLName := n'; rss.Item_Title := t; rss.Item_Link := l';
             rss.Item_Description := d; rss.Item_Source := s';
             rss.Item_Enclosure := e'; rss.Item_Category := c';
             rss.Item_PubDate := p'; rss.Item_GUID := g';
             rss.Item_Comments := cm'; rss.Item_Author := a' |}).
Proof.
  split; [|split].
  - intros r. reflexivity.
  - intros r. unfold rss.Item_IsValid, rss.Title_IsValid, rss.Description_IsValid.
    rewrite orb_true_iff, !negb_true_iff, !String.eqb_neq. tauto.
  - intros. reflexivity.
Qed.

(** An item with a title only is valid, one without title and description is
    not, and link and date make no difference. *)
Lemma Item_IsValid_title_or_description_witness :
  rss.Item_IsValid (samples.item "T" "" "" "") = true
  /\ rss.Item_IsValid (samples.item "" "" "http://example.com" "not a date")
     = negb (String.eqb "" "") || negb (String.eqb "" "")
  /\ rss.Item_IsValid (samples.item "" "D" "http://example.com" "not a date")
     = rss.Item_IsValid (samples.item "" "D" "not a url" "06 Sep 09 16:20 UTC").
Proof.
  split; [|split].
  - apply (proj1 (proj2 Item_IsValid_title_or_description)).
    left. simpl. discriminate.
  - apply (proj1 Item_IsValid_title_or_description).
  - apply (proj2 (proj2 Item_IsValid_title_or_description)).
Defined.

(** ** Leaf formats *)

(** [IsValidURL] answers true exactly when parsing fails. *)
Lemma IsValidURL_parse_error (s : string) :
  rss.IsValidURL s = url.ParseRequestURI_err s.
Proof. unfold rss.IsValidURL. destruct (url.ParseRequestURI_err s); reflexivity. Qed.

(** [IsValidRFC822] answers true exactly when parsing fails. *)
Lemma IsValidRFC822_parse_error (s : string) :
  rss.IsValidRFC822 s = time.Parse_RFC822_err s.
Proof. unfold rss.IsValidRFC822. destruct (time.Parse_RFC822_err s); reflexivity. Qed.

(** C6.  The URL check is to accept "http://example.com" and to reject
    "not a url".  [IsValidURL] does the opposite on both, and so do
    [Link.IsValid], [Source.IsValid] and the earlier [Link.isValid]:
    [url.ParseRequestURI] parses the first and fails on the second, and the
    check returns true when the error is not nil. *)
Theorem IsValidURL_examples :
  (forall s, rss.IsValidURL s = url.ParseRequestURI_err s)
  /\ rss.IsValidURL "http://example.com" = false
  /\ rss.IsValidURL "not a url" = true
  /\ url.ParseRequestURI_err "http://example.com" = false
  /\ url.ParseRequestURI_err "not a url" = true
  /\ rss.Link_IsValid "http://example.com" = false
  /\ rss.Link_IsValid "not a url" = true
  /\ rss.Source_IsValid {| rss.Source_URL := "http://example.com" |} = false
  /\ rss.Source_IsValid {| rss.Source_URL := "not a url" |} = true
  /\ pkg_rss.Link_isValid "http://example.com" = false
  /\ pkg_rss.Link_isValid "not a url" = true.
Proof.
  split; [exact IsValidURL_parse_error|].
  repeat split; reflexivity.
Qed.

(** C7.  The date check is to accept "Sun, 06 Sep 2009 16:20:00 +0000" and to
    reject "not a date".  [IsValidRFC822] returns true on both: [time.Parse]
    with the layout [time.RFC822] fails on both (the layout starts with the
    two-digit day), and the check returns true when the error is not nil.  A
    date in the layout, "06 Sep 09 16:20 UTC", parses and is rejected. *)
Theorem IsValidRFC822_examples :
  (forall s, rss.IsValidRFC822 s = time.Parse_RFC822_err s)
  /\ rss.IsValidRFC822 "Sun, 06 Sep 2009 16:20:00 +0000" = true
  /\ rss.IsValidRFC822 "not a date" = true
  /\ rss.PubDate_IsValid "not a date" = true
  /\ time.Parse_RFC822_err "Sun, 06 Sep 2009 16:20:00 +0000" = true
  /\ time.Parse_RFC822_err "not a date" = true
  /\ time.Parse_RFC822_err "06 Sep 09 16:20 UTC" = false
  /\ rss.IsValidRFC822 "06 Sep 09 16:20 UTC" = false
  /\ pkg_rss.IsValidRFC822 "not a date" = true.
Proof.
  split; [exact IsValidRFC822_parse_error|].
  repeat split; reflexivity.
Qed.

(** C8.  TTL validity is to accept exactly the positive integers.
    [TTL.IsValid] accepts exactly the numerals that fit 64 bits: it rejects
    "-1" and "abc" and accepts "1800", but it accepts "0" as well, since the
    parsed value is unsigned and the test is [i < 0].  The earlier
    [TTL.isValid], on an [int], tests [r > 0]. *)
Theorem TTL_IsValid_examples :
  (forall r, rss.TTL_IsValid r = numeral r && (decimal r <=? strconv.maxUint64))
  /\ rss.TTL_IsValid "0" = true
  /\ rss.TTL_IsValid "1800" = true
  /\ rss.TTL_IsValid "-1" = false
  /\ rss.TTL_IsValid "abc" = false
  /\ strconv.ParseUint10 "0" 0 = (0, None)
  /\ pkg_rss.TTL_isValid 0 = false
  /\ pkg_rss.TTL_isValid 1800 = true
  /\ pkg_rss.TTL_isValid (-1) = false.
Proof.
  split; [exact TTL_IsValid_spec|].
  repeat split; reflexivity.
Qed.

(** ** Skip hours *)

Lemma Hour_IsValid_inRange (h : rss.Hour) :
  rss.Hour_IsValid h = true <-> inRange h.
Proof.
  unfold rss.Hour_IsValid, inRange.
  destruct (h <? 0) eqn:Hlo; destruct (23 <? h) eqn:Hhi; simpl;
    rewrite ?Z.ltb_lt, ?Z.ltb_ge in *; split; intros; try discriminate;
    try reflexivity; lia.
Qed.

Lemma Hour_IsValid_outside (h : rss.Hour) :
  ~ inRange h -> rss.Hour_IsValid h = false.
Proof.
  intros Hn. destruct (rss.Hour_IsValid h) eqn:E; [|reflexivity].
  apply Hour_IsValid_inRange in E. contradiction.
Qed.

(** The loop over pointers to hours in range runs to its end. *)
Lemma SkipHours_range_all (hs : list rss.Hour) :
  Forall inRange hs -> rss.SkipHours_range (map Some hs) = Returns true.
Proof.
  induction 1 as [|h hs Hh _ IH]; simpl; [reflexivity|].
  apply Hour_IsValid_inRange in Hh. rewrite Hh. simpl. exact IH.
Qed.

(** The loop stops at the first hour out of range; what follows it, nil
    pointers included, is not looked at. *)
Lemma SkipHours_range_first (pre : list rss.Hour) (h : rss.Hour)
      (post : list (option rss.Hour)) :
  Forall inRange pre -> ~ inRange h ->
  rss.SkipHours_range (map Some pre ++ Some h :: post)%list = Returns false.
Proof.
  intros Hpre Hh. induction Hpre as [|p pre Hp _ IH]; simpl.
  - rewrite (Hour_IsValid_outside h Hh). reflexivity.
  - apply Hour_IsValid_inRange in Hp. rewrite Hp. simpl. exact IH.
Qed.

(** Without nil pointers, one hour out of range anywhere is enough. *)
Lemma SkipHours_range_exists (hs : list rss.Hour) :
  Exists (fun h => ~ inRange h) hs ->
  rss.SkipHours_range (map Some hs) = Returns false.
Proof.
  induction hs as [|h hs IH]; intros Hex; [inversion Hex|].
  simpl. destruct (rss.Hour_IsValid h) eqn:E; simpl; [|reflexivity].
  apply IH. inversion Hex as [? ? Hn|]; subst; [|assumption].
  apply Hour_IsValid_inRange in E. contradiction.
Qed.

(** With or without nil pointers, it never lets the list through. *)
Lemma SkipHours_range_not_true (hs : list (option rss.Hour)) (h : rss.Hour) :
  In (Some h) hs -> ~ inRange h -> rss.SkipHours_range hs <> Returns true.
Proof.
  intros Hin Hh. induction hs as [|x hs IH]; [inversion Hin|].
  simpl. destruct x as [v|]; simpl; [|discriminate].
  destruct (rss.Hour_IsValid v) eqn:E; simpl; [|discriminate].
  apply IH. destruct Hin as [Heq|Hin]; [|assumption].
  inversion Heq; subst. apply Hour_IsValid_inRange in E. contradiction.
Qed.

(** C10.  [SkipHours.IsValid] checks the length bound before the entries and
    then the entries in order: more than 24 entries give false whatever the
    entries are (25 in particular); at most 24 entries, all in [0,23], give
    true; an entry outside [0,23] (24 in particular) gives false, as the
    first such entry stops the loop. *)
Theorem SkipHours_IsValid_bound_then_entries (r : rss.SkipHours) :
  (24 < Z.of_nat (List.length (rss.SkipHours_Hour r)) ->
     rss.SkipHours_IsValid r = Returns false)
  /\ (forall hs,
        rss.SkipHours_Hour r = map Some hs ->
        Z.of_nat (List.length hs) <= 24 ->
        Forall inRange hs ->
        rss.SkipHours_IsValid r = Returns true)
  /\ (forall hs,
        rss.SkipHours_Hour r = map Some hs ->
        Exists (fun h => ~ inRange h) hs ->
        rss.SkipHours_IsValid r = Returns false)
  /\ (forall pre h post,
        rss.SkipHours_Hour r = (map Some pre ++ Some h :: post)%list ->
        Forall inRange pre -> ~ inRange h ->
        rss.SkipHours_IsValid r = Returns false)
  /\ (forall h,
        In (Some h) (rss.SkipHours_Hour r) -> ~ inRange h ->
        rss.SkipHours_IsValid r <> Returns true).
Proof.
  unfold rss.SkipHours_IsValid.
  destruct (24 <? Z.of_nat (List.length (rss.SkipHours_Hour r))) eqn:Hlen.
  - apply Z.ltb_lt in Hlen.
    repeat split; intros; try reflexivity; try discriminate.
    match goal with
    | [ E : rss.SkipHours_Hour r = map Some _ |- _ ] =>
        rewrite E, length_map in Hlen
    end.
    lia.
  - apply Z.ltb_ge in Hlen.
    split; [intros; lia|].
    split; [intros hs E _ Hall; rewrite E; apply SkipHours_range_all; assumption|].
    split; [intros hs E Hex; rewrite E; apply SkipHours_range_exists; assumption|].
    split.
    + intros pre h post E Hpre Hh. rewrite E.
      apply SkipHours_range_first; assumption.
    + intros h Hin Hh. eapply SkipHours_range_not_true; eassumption.
Qed.

(** The four cases on concrete lists: 25 entries (in range, then all nil), 24
    entries equal to 23, and the hour 24 among at most 24 entries, with and
    without a nil pointer after it. *)
Lemma SkipHours_IsValid_bound_then_entries_witness :
  rss.SkipHours_IsValid (samples.skipHours (samples.hours 25 0)) = Returns false
  /\ rss.SkipHours_IsValid (samples.skipHours (repeat None 25)) = Returns false
  /\ rss.SkipHours_IsValid (samples.skipHours (samples.hours 24 23)) = Returns true
  /\ rss.SkipHours_IsValid (samples.skipHours [Some 1; Some 24]) = Returns false
  /\ rss.SkipHours_IsValid (samples.skipHours [Some 1; Some 24; None]) = Returns false
  /\ rss.SkipHours_IsValid (samples.skipHours [None; Some 24]) <> Returns true.
Proof.
  split; [|split; [|split; [|split; [|split]]]].
  - apply (proj1 (SkipHours_IsValid_bound_then_entries _)). simpl. lia.
  - apply (proj1 (SkipHours_IsValid_bound_then_entries _)). simpl. lia.
  - apply (proj1 (proj2 (SkipHours_IsValid_bound_then_entries _))
             (repeat 23 24)).
    + reflexivity.
    + simpl. lia.
    + repeat constructor; unfold inRange; lia.
  - apply (proj1 (proj2 (proj2 (SkipHours_IsValid_bound_then_entries _)))
             [1; 24]).
    + reflexivity.
    + apply Exists_cons_tl, Exists_cons_hd. unfold inRange. lia.
  - apply (proj1 (proj2 (proj2 (proj2 (SkipHours_IsValid_bound_then_entries _))))
             [1] 24 [None]).
    + reflexivity.
    + repeat constructor; unfold inRange; lia.
    + unfold inRange. lia.
  - apply (proj2 (proj2 (proj2 (proj2 (SkipHours_IsValid_bound_then_entries _))))
             24).
    + simpl. right. left. reflexivity.
    + unfold inRange. lia.
Defined.


(** * Further properties of the validity predicates *)

(** ** Skip days *)

(** The loop over the days never answers false: [Day.IsValid] is constantly
    true, so only a nil pointer ends it early. *)
Lemma SkipDays_range_spec (ds : list (option rss.Day)) :
  rss.SkipDays_range ds
  = if forallb isSome ds then Returns true else Panics NilPointerDereference.
Proof.
  induction ds as [|d ds IH]; simpl; [reflexivity|].
  destruct d as [d|]; simpl; [exact IH|reflexivity].
Qed.

(** X1.  [SkipDays.IsValid] returns false for more than seven entries; for at
    most seven it returns true when no entry is nil and panics when one is.
    The day names are never looked at. *)
Theorem SkipDays_IsValid_outcomes (r : rss.SkipDays) :
  rss.SkipDays_IsValid r
  = if 7 <? Z.of_nat (List.length (rss.SkipDays_Day r)) then Returns false
    else if forallb isSome (rss.SkipDays_Day r) then Returns true
         else Panics NilPointerDereference.
Proof.
  unfold rss.SkipDays_IsValid.
  destruct (7 <? Z.of_nat (List.length (rss.SkipDays_Day r))); [reflexivity|].
  apply SkipDays_range_spec.
Qed.

(** ** Skip hours, all outcomes *)

Lemma SkipHours_range_true (hs : list (option rss.Hour)) :
  rss.SkipHours_range hs = Returns true <-> Forall validHour hs.
Proof.
  induction hs as [|h hs IH]; simpl.
  - split; [constructor|reflexivity].
  - destruct h as [v|]; simpl.
    + destruct (rss.Hour_IsValid v) eqn:E; simpl.
      * rewrite IH. split.
        -- intros H. constructor; [|exact H].
           exists v. split; [reflexivity|]. apply Hour_IsValid_inRange. exact E.
        -- intros H. inversion H; assumption.
      * split; [discriminate|].
        intros H. inversion H as [|? ? (w & Hw & Hr) _]; subst.
        inversion Hw; subst. apply Hour_IsValid_inRange in Hr. congruence.
    + split; [discriminate|].
      intros H. inversion H as [|? ? (w & Hw & _) _]. discriminate.
Qed.

Lemma SkipHours_range_panics (hs : list (option rss.Hour)) (p : panic) :
  rss.SkipHours_range hs = Panics p
  <-> p = NilPointerDereference
      /\ exists pre post,
           hs = (map Some pre ++ None :: post)%list /\ Forall inRange pre.
Proof.
  induction hs as [|h hs IH]; simpl.
  - split; [discriminate|].
    intros (_ & pre & post & E & _). destruct pre; discriminate.
  - destruct h as [v|]; simpl.
    + destruct (rss.Hour_IsValid v) eqn:E; simpl.
      * rewrite IH. split.
        -- intros (Hp & pre & post & Hhs & Hpre). split; [exact Hp|].
           exists (v :: pre), post. split; [simpl; rewrite Hhs; reflexivity|].
           constructor; [apply Hour_IsValid_inRange; exact E|exact Hpre].
        -- intros (Hp & pre & post & Hhs & Hpre). split; [exact Hp|].
           destruct pre as [|w pre]; [discriminate|].
           simpl in Hhs. inversion Hhs; subst.
           exists pre, post. split; [reflexivity|].
           inversion Hpre; assumption.
      * split; [discriminate|].
        intros (_ & pre & post & Hhs & Hpre).
        destruct pre as [|w pre]; [discriminate|].
        simpl in Hhs. inversion Hhs; subst.
        inversion Hpre as [|? ? Hw _]; subst.
        apply Hour_IsValid_inRange in Hw. congruence.
    + split.
      * intros H. inversion H; subst. split; [reflexivity|].
        exists [], hs. split; [reflexivity|constructor].
      * intros (Hp & _). subst. reflexivity.
Qed.

(** X2.  [SkipHours.IsValid] returns true exactly for the lists of at most 24
    entries in which every pointer is non-nil and points to an hour in
    [0,23]. *)
Theorem SkipHours_IsValid_true_iff (r : rss.SkipHours) :
  rss.SkipHours_IsValid r = Returns true
  <-> Z.of_nat (List.length (rss.SkipHours_Hour r)) <= 24
      /\ Forall validHour (rss.SkipHours_Hour r).
Proof.
  unfold rss.SkipHours_IsValid.
  destruct (24 <? Z.of_nat (List.length (rss.SkipHours_Hour r))) eqn:Hlen.
  - apply Z.ltb_lt in Hlen. split; [discriminate|]. intros [H _]. lia.
  - apply Z.ltb_ge in Hlen. rewrite SkipHours_range_true. tauto.
Qed.

Lemma SkipHours_IsValid_true_iff_witness :
  Z.of_nat (List.length (rss.SkipHours_Hour (samples.skipHours [Some 0; Some 23]))) <= 24
  /\ Forall validHour (rss.SkipHours_Hour (samples.skipHours [Some 0; Some 23])).
Proof.
  apply (proj1 (SkipHours_IsValid_true_iff (samples.skipHours [Some 0; Some 23]))).
  reflexivity.
Defined.

(** X3.  [SkipHours.IsValid] panics exactly when the list has at most 24
    entries and a nil pointer comes before any hour out of range; the panic
    is the nil pointer dereference. *)
Theorem SkipHours_IsValid_panics_iff (r : rss.SkipHours) (p : panic) :
  rss.SkipHours_IsValid r = Panics p
  <-> p = NilPointerDereference
      /\ Z.of_nat (List.length (rss.SkipHours_Hour r)) <= 24
      /\ exists pre post,
           rss.SkipHours_Hour r = (map Some pre ++ None :: post)%list
           /\ Forall inRange pre.
Proof.
  unfold rss.SkipHours_IsValid.
  destruct (24 <? Z.of_nat (List.length (rss.SkipHours_Hour r))) eqn:Hlen.
  - apply Z.ltb_lt in Hlen. split; [discriminate|]. intros (_ & H & _). lia.
  - apply Z.ltb_ge in Hlen. rewrite SkipHours_range_panics. tauto.
Qed.

Lemma SkipHours_IsValid_panics_iff_witness :
  rss.SkipHours_IsValid (samples.skipHours [Some 5; None; Some 24])
  = Panics NilPointerDereference.
Proof.
  apply (proj2 (SkipHours_IsValid_panics_iff
                  (samples.skipHours [Some 5; None; Some 24])
                  NilPointerDereference)).
  split; [reflexivity|]. split; [simpl; lia|].
  exists [5], [Some 24]. split; [reflexivity|].
  repeat constructor; unfold inRange; lia.
Defined.

(** Selecting entries keeps the pointers valid and the list no longer. *)
Lemma validHour_filter (keep : option rss.Hour -> bool)
      (hs : list (option rss.Hour)) :
  Forall validHour hs ->
  Forall validHour (filter keep hs)
  /\ (List.length (filter keep hs) <= List.length hs)%nat.
Proof.
  induction 1 as [|h hs Hh _ [IHv IHl]]; simpl.
  - split; [constructor|lia].
  - destruct (keep h); simpl; split; try lia; [constructor|]; assumption.
Qed.

(** X4.  Dropping entries keeps a valid [SkipHours] valid: if the list is
    accepted, so is every selection of its entries. *)
Theorem SkipHours_IsValid_filter (r : rss.SkipHours)
        (keep : option rss.Hour -> bool) :
  rss.SkipHours_IsValid r = Returns true ->
  rss.SkipHours_IsValid
    {| rss.SkipHours_XMLName := rss.SkipHours_XMLName r;
       rss.SkipHours_Hour := filter keep (rss.SkipHours_Hour r) |}
  = Returns true.
Proof.
  unfold rss.SkipHours_IsValid; simpl.
  destruct (24 <? Z.of_nat (List.length (rss.SkipHours_Hour r))) eqn:Hlen;
    [discriminate|].
  apply Z.ltb_ge in Hlen. intros H.
  apply SkipHours_range_true in H.
  destruct (validHour_filter keep _ H) as [Hv Hle].
  destruct (24 <? Z.of_nat (List.length (filter keep (rss.SkipHours_Hour r))))
    eqn:Hlen'; [apply Z.ltb_lt in Hlen'; lia|].
  apply SkipHours_range_true. exact Hv.
Qed.

Lemma SkipHours_IsValid_filter_witness :
  rss.SkipHours_IsValid
    {| rss.SkipHours_XMLName := samples.name "skipHours";
       rss.SkipHours_Hour :=
         filter (fun h => match h with Some v => v <? 12 | None => false end)
                (samples.hours 24 3) |}
  = Returns true.
Proof.
  apply (SkipHours_IsValid_filter (samples.skipHours (samples.hours 24 3))).
  reflexivity.
Defined.

(** ** The document walk, all outcomes *)

(** X5.  The earlier [RSS.isValid] returns true exactly when the version is
    "2.0" and the channel is present with non-empty title, link and
    description; it panics exactly when the version is "2.0" and the channel
    pointer is nil, and with no other panic than the nil dereference. *)
Theorem RSS_isValid_outcomes (r : pkg_rss.RSS) :
  (pkg_rss.RSS_isValid r = Returns true
   <-> pkg_rss.RSS_Version r = "2.0"
       /\ exists c, pkg_rss.RSS_Channel r = Some c
                    /\ pkg_rss.Channel_Title c <> ""
                    /\ pkg_rss.Channel_Link c <> ""
                    /\ pkg_rss.Channel_Description c <> "")
  /\ (forall p, pkg_rss.RSS_isValid r = Panics p
      <-> p = NilPointerDereference
          /\ pkg_rss.RSS_Version r = "2.0" /\ pkg_rss.RSS_Channel r = None).
Proof.
  rewrite RSS_isValid_unfold.
  unfold pkg_rss.Version_isValid, pkg_rss.RSSVERSION.
  destruct (String.eqb (pkg_rss.RSS_Version r) "2.0") eqn:Ev.
  - apply String.eqb_eq in Ev.
    destruct (pkg_rss.RSS_Channel r) as [c|].
    + split.
      * unfold pkg_rss.Channel_isValid. split.
        -- intros H. injection H as Hc.
           rewrite !andb_true_iff, !negb_true_iff, !String.eqb_neq in Hc.
           split; [exact Ev|]. exists c. tauto.
        -- intros (_ & c' & Hc' & Ht & Hl & Hd). inversion Hc'; subst c'.
           apply String.eqb_neq in Ht, Hl, Hd. rewrite Ht, Hl, Hd. reflexivity.
      * intros p. split; [discriminate|]. intros (_ & _ & H). discriminate.
    + split.
      * split; [discriminate|]. intros (_ & c & H & _). discriminate.
      * intros p. split.
        -- intros H. inversion H. auto.
        -- intros (Hp & _). subst. reflexivity.
  - apply String.eqb_neq in Ev. split.
    + split; [discriminate|]. intros (H & _). contradiction.
    + intros p. split; [discriminate|]. intros (_ & H & _). contradiction.
Qed.

Lemma RSS_isValid_outcomes_witness :
  pkg_rss.RSS_isValid samples.minimal0 = Returns true
  /\ pkg_rss.RSS_isValid (samples.noChannel0 "2.0") = Panics NilPointerDereference.
Proof.
  split.
  - apply (proj2 (proj1 (RSS_isValid_outcomes samples.minimal0))).
    split; [reflexivity|]. exists samples.channel0.
    repeat split; discriminate.
  - apply (proj2 (proj2 (RSS_isValid_outcomes (samples.noChannel0 "2.0"))
                        NilPointerDereference)).
    repeat split.
Defined.

(** The guard of the exported walk cannot be evaluated on any element: the
    value after [Indirect] is a string, a struct or the zero Value, and
    [IsNil] panics on each. *)
Lemma RSSElement_IsNil_panics (t : rss.RSSElement) :
  reflect_IsNil (reflect.Indirect (rss.ValueOf t))
  = Panics (ValueError "reflect.Value.IsNil"
              (reflect.kind (reflect.Indirect (rss.ValueOf t)))).
Proof. destruct t as [v|[c|]]; reflexivity. Qed.

(** X6.  The loop of the exported [RSS.IsValid] never returns false, on any
    sequence of fields: it returns true exactly when no field is an
    [RSSElement], and otherwise panics at the first field that is one, with
    the kind of that element after [Indirect] (String for a version, Struct
    for a channel, Invalid for a nil channel pointer). *)
Theorem RSS_IsValid_loop_outcomes (fs : list rss.field) :
  rss.RSS_IsValid_loop fs <> Returns false
  /\ (rss.RSS_IsValid_loop fs = Returns true
      <-> Forall (fun f => rss.assert_RSSElement f = None) fs)
  /\ (forall pre t f post,
        fs = (pre ++ f :: post)%list ->
        Forall (fun f => rss.assert_RSSElement f = None) pre ->
        rss.assert_RSSElement f = Some t ->
        rss.RSS_IsValid_loop fs
        = Panics (ValueError "reflect.Value.IsNil"
                    (reflect.kind (reflect.Indirect (rss.ValueOf t))))).
Proof.
  split; [|split].
  - induction fs as [|f fs IH]; simpl; [discriminate|].
    destruct (rss.assert_RSSElement f) as [t|]; [|exact IH].
    rewrite RSSElement_IsNil_panics. discriminate.
  - induction fs as [|f fs IH]; simpl.
    + split; [constructor|reflexivity].
    + destruct (rss.assert_RSSElement f) as [t|] eqn:E.
      * rewrite RSSElement_IsNil_panics. split; [discriminate|].
        intros H. inversion H; subst. congruence.
      * rewrite IH. split.
        -- intros H. constructor; assumption.
        -- intros H. inversion H; assumption.
  - intros pre t f post -> Hpre Hf.
    induction Hpre as [|g pre Hg _ IH]; simpl.
    + rewrite Hf. rewrite RSSElement_IsNil_panics. reflexivity.
    + rewrite Hg. exact IH.
Qed.

Lemma RSS_IsValid_loop_outcomes_witness :
  rss.RSS_IsValid_loop [rss.field_Name samples.noName; rss.field_pChannel None]
  = Panics (ValueError "reflect.Value.IsNil" reflect.Invalid)
  /\ rss.RSS_IsValid_loop [rss.field_pChannel (Some samples.channel)]
     = Panics (ValueError "reflect.Value.IsNil" reflect.Struct)
  /\ rss.RSS_IsValid_loop [rss.field_Name samples.noName] = Returns true.
Proof.
  split; [|split].
  - apply (proj2 (proj2 (RSS_IsValid_loop_outcomes _))
             [rss.field_Name samples.noName] (rss.elem_pChannel None)
             (rss.field_pChannel None) []);
      [reflexivity|repeat constructor|reflexivity].
  - apply (proj2 (proj2 (RSS_IsValid_loop_outcomes _))
             [] (rss.elem_pChannel (Some samples.channel))
             (rss.field_pChannel (Some samples.channel)) []);
      [reflexivity|constructor|reflexivity].
  - apply (proj2 (proj1 (proj2 (RSS_IsValid_loop_outcomes _)))).
    repeat constructor.
Defined.

(** ** Images, all verdicts *)

(** X7.  The exported [Image.IsValid] returns true exactly when the URL and
    the link both parse ([url.ParseRequestURI] returns no error), the title
    is EMPTY, and width and height are numerals of at most 144 and 400. *)
Theorem Image_IsValid_true_iff (r : rss.Image) :
  rss.Image_IsValid r = true
  <-> url.ParseRequestURI_err (rss.Image_URL r) = false
      /\ rss.Image_Title r = ""
      /\ url.ParseRequestURI_err (rss.Image_Link r) = false
      /\ (numeral (rss.Image_Width r) = true /\ decimal (rss.Image_Width r) <= 144)
      /\ (numeral (rss.Image_Height r) = true /\ decimal (rss.Image_Height r) <= 400).
Proof.
  rewrite Image_IsValid_unfold.
  unfold rss.URL_IsValid, rss.Link_IsValid.
  rewrite !IsValidURL_parse_error.
  rewrite !andb_true_iff, !negb_true_iff, String.eqb_eq, !Z.leb_le.
  tauto.
Qed.

Lemma Image_IsValid_true_iff_witness :
  rss.Image_IsValid
    {| rss.Image_XMLName := samples.name "image";
       rss.Image_URL := "http://example.com/logo.png";
       rss.Image_Title := "";
       rss.Image_Link := "http://example.com";
       rss.Image_Width := "88";
       rss.Image_Height := "31";
       rss.Image_Description := "" |} = true.
Proof.
  apply (proj2 (Image_IsValid_true_iff _)). simpl.
  repeat split; try reflexivity; unfold decimal; simpl; lia.
Defined.

(** X8.  The earlier [Image.isValid] returns true exactly when URL, title and
    link are non-empty and width and height are numerals of at most 144 and
    400; the URL and the link are not parsed. *)
Theorem Image_isValid_true_iff (r : pkg_rss.Image) :
  pkg_rss.Image_isValid r = true
  <-> pkg_rss.Image_Url r <> ""
      /\ pkg_rss.Image_Title r <> ""
      /\ pkg_rss.Image_Link r <> ""
      /\ (numeral (pkg_rss.Image_Width r) = true
          /\ decimal (pkg_rss.Image_Width r) <= 144)
      /\ (numeral (pkg_rss.Image_Height r) = true
          /\ decimal (pkg_rss.Image_Height r) <= 400).
Proof.
  rewrite Image_isValid_unfold.
  rewrite !andb_true_iff, !negb_true_iff, !String.eqb_neq, !Z.leb_le.
  tauto.
Qed.

Lemma Image_isValid_true_iff_witness :
  pkg_rss.Image_isValid (samples.image0 "88" "31") = true.
Proof.
  apply (proj2 (Image_isValid_true_iff _)). simpl.
  repeat split; try discriminate; try reflexivity; unfold decimal; simpl; lia.
Defined.

(** X9.  No image is accepted by both generations: what the earlier
    [Image.isValid] accepts has a title, and the exported [Image.IsValid]
    rejects every image with a title. *)
Theorem Image_generations_disagree (r : pkg_rss.Image) (n : xml.Name) :
  pkg_rss.Image_isValid r = true ->
  rss.Image_IsValid
    {| rss.Image_XMLName := n;
       rss.Image_URL := pkg_rss.Image_Url r;
       rss.Image_Title := pkg_rss.Image_Title r;
       rss.Image_Link := pkg_rss.Image_Link r;
       rss.Image_Width := pkg_rss.Image_Width r;
       rss.Image_Height := pkg_rss.Image_Height r;
       rss.Image_Description := pkg_rss.Image_Description r |} = false.
Proof.
  rewrite Image_isValid_unfold, !andb_true_iff, !negb_true_iff.
  intros ((((_ & Ht) & _) & _) & _).
  destruct (pkg_rss.Image_Title r) as [|c t]; [discriminate|].
  apply Image_IsValid_titled.
Qed.

Lemma Image_generations_disagree_witness :
  rss.Image_IsValid (samples.image "144" "400") = false.
Proof.
  apply (Image_generations_disagree (samples.image0 "144" "400")
           (samples.name "image")).
  reflexivity.
Defined.

(** ** Dates *)

(** X10.  [IsValidRFC822] returns false only on values that begin with two
    digits and a space. *)
Theorem IsValidRFC822_false_shape (s : string) :
  rss.IsValidRFC822 s = false ->
  exists d0 d1 rest,
    bytes s = d0 :: d1 :: 32 :: rest /\ isDigit d0 = true /\ isDigit d1 = true.
Proof.
  unfold rss.IsValidRFC822, time.Parse_RFC822_err.
  destruct (time.parse_RFC822 (bytes s)) as [u|] eqn:E; [intros _|discriminate].
  unfold time.parse_RFC822 in E.
  destruct (bytes s) as [|d0 [|d1 rest]]; try discriminate.
  - simpl in E. destruct (isDigit d0); discriminate.
  - unfold time.getnum in E.
    destruct (isDigit d0) eqn:H0; [|discriminate].
    destruct (isDigit d1) eqn:H1; [|discriminate].
    unfold time.then_ at 1 in E.
    destruct rest as [|c rest].
    + simpl in E. discriminate.
    + unfold time.skip_space in E.
      destruct (c =? 32) eqn:Hc; [|discriminate].
      apply Z.eqb_eq in Hc. subst c.
      exists d0, d1, rest. repeat split; assumption.
Qed.

Lemma IsValidRFC822_false_shape_witness :
  exists d0 d1 rest,
    bytes "06 Sep 09 16:20 UTC" = d0 :: d1 :: 32 :: rest
    /\ isDigit d0 = true /\ isDigit d1 = true.
Proof. apply (IsValidRFC822_false_shape "06 Sep 09 16:20 UTC"). reflexivity. Defined.

(** ** URLs *)

Lemma bytes_star (s : string) : bytes s = [42] -> s = "*".
Proof.
  destruct s as [|c [|c' s]]; simpl; try discriminate.
  intros H. injection H as H. unfold byte in H.
  assert (Hc : N_of_ascii c = 42%N) by lia.
  rewrite <- (ascii_N_embedding c), Hc. reflexivity.
Qed.

Lemma parse_err_tail (rawURL : list Z) :
  rawURL <> [] -> rawURL <> [42] ->
  url.stringContainsCTLByte rawURL = false ->
  url.parse_err rawURL = parse_tail rawURL.
Proof.
  intros Hnil Hstar Hctl. unfold url.parse_err. rewrite Hctl.
  destruct rawURL as [|c l]; [congruence|].
  destruct c as [|p|p]; try reflexivity.
  do 6 (destruct p as [p|p|]; try reflexivity).
  destruct l; [congruence|reflexivity].
Qed.

Lemma getScheme_no_colon (rawURL s : list Z) (i : nat) :
  existsb (Z.eqb 58) s = false ->
  url.getScheme_from rawURL i s = Some ([], rawURL).
Proof.
  revert i. induction s as [|c s IH]; intros i H; [reflexivity|].
  change (existsb (Z.eqb 58) (c :: s))
    with (Z.eqb 58 c || existsb (Z.eqb 58) s) in H.
  apply orb_false_iff in H. destruct H as [Hc Hs].
  cbn [url.getScheme_from].
  destruct (isAlpha c); [apply IH; exact Hs|].
  destruct (isDigit c || (c =? 43) || (c =? 45) || (c =? 46)).
  - destruct i; [reflexivity|apply IH; exact Hs].
  - rewrite Z.eqb_sym in Hc. rewrite Hc. reflexivity.
Qed.

Lemma hasPrefix_firstn (c : Z) (s : list Z) (q : nat) :
  url.hasPrefix [c] s = false -> url.hasPrefix [c] (firstn q s) = false.
Proof.
  destruct s as [|b s]; destruct q; simpl; try reflexivity.
  intros H. exact H.
Qed.

Lemma parse_schemeless (s : string) :
  s <> "*" ->
  existsb (Z.eqb 58) (bytes s) = false ->
  url.hasPrefix [47] (bytes s) = false ->
  url.ParseRequestURI_err s = true.
Proof.
  intros Hstar Hcolon Hslash.
  unfold url.ParseRequestURI_err.
  destruct (url.stringContainsCTLByte (bytes s)) eqn:Hctl.
  - unfold url.parse_err. rewrite Hctl. reflexivity.
  - destruct (bytes s) as [|c l] eqn:Hb.
    + unfold url.parse_err. rewrite Hctl. reflexivity.
    + rewrite parse_err_tail; [|discriminate| |exact Hctl].
      * unfold parse_tail, url.getScheme.
        rewrite (getScheme_no_colon _ _ _ Hcolon). cbv zeta.
        change (negb (Nat.eqb (@List.length Z []) 0)) with false.
        destruct (url.index 63 (c :: l)) as [q|].
        -- rewrite (hasPrefix_firstn 47 (c :: l) q Hslash). reflexivity.
        -- rewrite Hslash. reflexivity.
      * intros E. rewrite E in Hb. apply bytes_star in Hb. contradiction.
Qed.

(** X11.  [IsValidURL] returns true on every string without a colon that
    does not start with a slash and is not "*": free text, bare host names
    and the empty string all count as valid URLs, and so for [Link.IsValid],
    [Source.IsValid] and [Enclosure.IsValid] (whatever length and type) and
    for the earlier [Link.isValid]. *)
Theorem IsValidURL_schemeless (s : string) (length type : string) :
  s <> "*" ->
  existsb (Z.eqb 58) (bytes s) = false ->
  url.hasPrefix [47] (bytes s) = false ->
  rss.IsValidURL s = true
  /\ rss.Link_IsValid s = true
  /\ rss.Source_IsValid {| rss.Source_URL := s |} = true
  /\ rss.Enclosure_IsValid
       {| rss.Enclosure_URL := s; rss.Enclosure_Length := length;
          rss.Enclosure_Type := type |} = true
  /\ pkg_rss.Link_isValid s = true.
Proof.
  intros Hstar Hcolon Hslash.
  pose proof (parse_schemeless s Hstar Hcolon Hslash) as E.
  unfold rss.Enclosure_IsValid, rss.Source_IsValid, rss.URL_IsValid,
    rss.Link_IsValid, pkg_rss.Link_isValid, rss.IsValidURL; simpl.
  rewrite E. repeat split.
Qed.

Lemma IsValidURL_schemeless_witness :
  rss.IsValidURL "not a url" = true
  /\ rss.Link_IsValid "www.example.com" = true
  /\ rss.Source_IsValid {| rss.Source_URL := "" |} = true.
Proof.
  split; [|split].
  - apply (IsValidURL_schemeless "not a url" "" "");
      try discriminate; reflexivity.
  - apply (IsValidURL_schemeless "www.example.com" "" "");
      try discriminate; reflexivity.
  - apply (IsValidURL_schemeless "" "" ""); try discriminate; reflexivity.
Defined.

Lemma hostByte_cases (c : Z) :
  hostByte c = true ->
  65 <= c <= 90 \/ 97 <= c <= 122 \/ 48 <= c <= 57 \/ c = 45 \/ c = 46.
Proof.
  unfold hostByte, isAlpha, isUpper, isLower, isDigit.
  rewrite !orb_true_iff, !andb_true_iff, !Z.leb_le, !Z.eqb_eq. tauto.
Qed.

Lemma host_index (k : Z) (hb : list Z) :
  hostByte k = false -> forallb hostByte hb = true -> url.index k hb = None.
Proof.
  intros Hk. induction hb as [|c hb IH]; intros H; [reflexivity|].
  cbn [forallb] in H. apply andb_true_iff in H. destruct H as [Hc Hhb].
  cbn [url.index]. destruct (c =? k) eqn:E.
  - apply Z.eqb_eq in E. subst. congruence.
  - rewrite (IH Hhb). reflexivity.
Qed.

Lemma host_lastIndex (k : Z) (hb : list Z) :
  hostByte k = false -> forallb hostByte hb = true -> url.lastIndex k hb = None.
Proof.
  intros Hk. induction hb as [|c hb IH]; intros H; [reflexivity|].
  cbn [forallb] in H. apply andb_true_iff in H. destruct H as [Hc Hhb].
  cbn [url.lastIndex]. rewrite (IH Hhb). destruct (c =? k) eqn:E.
  - apply Z.eqb_eq in E. subst. congruence.
  - reflexivity.
Qed.

Lemma host_ctl (hb : list Z) :
  forallb hostByte hb = true -> url.stringContainsCTLByte hb = false.
Proof.
  unfold url.stringContainsCTLByte.
  induction hb as [|c hb IH]; intros H; [reflexivity|].
  cbn [forallb] in H. apply andb_true_iff in H. destruct H as [Hc Hhb].
  cbn [existsb]. rewrite (IH Hhb).
  apply hostByte_cases in Hc.
  destruct (c <? 32) eqn:E1; [apply Z.ltb_lt in E1; lia|].
  destruct (c =? 127) eqn:E2; [apply Z.eqb_eq in E2; lia|].
  reflexivity.
Qed.

Lemma host_shouldEscape (c : Z) :
  hostByte c = true -> url.shouldEscapeHost c = false.
Proof.
  unfold hostByte, url.shouldEscapeHost.
  destruct (isAlpha c || isDigit c); [reflexivity|]. simpl.
  destruct (c =? 45) eqn:E1; simpl.
  - apply Z.eqb_eq in E1. subst. intros _. reflexivity.
  - destruct (c =? 46) eqn:E2; [|discriminate].
    apply Z.eqb_eq in E2. subst. intros _. reflexivity.
Qed.

Lemma host_unescape (hb : list Z) :
  forallb hostByte hb = true -> url.unescape_err url.encodeHost hb = false.
Proof.
  induction hb as [|c hb IH]; intros H; [reflexivity|].
  cbn [forallb] in H. apply andb_true_iff in H. destruct H as [Hc Hhb].
  cbn [url.unescape_err].
  destruct (c =? 37) eqn:E; [apply Z.eqb_eq in E; subst; discriminate|].
  rewrite (host_shouldEscape c Hc), andb_false_r. apply IH. exact Hhb.
Qed.

Lemma host_no_bracket (hb : list Z) :
  forallb hostByte hb = true -> url.hasPrefix [91] hb = false.
Proof.
  destruct hb as [|c hb]; [reflexivity|].
  cbn [forallb url.hasPrefix]. intros H. apply andb_true_iff in H.
  destruct H as [Hc _]. destruct (91 =? c) eqn:E; [|reflexivity].
  apply Z.eqb_eq in E. subst. discriminate.
Qed.

(** A plain host name is a good authority. *)
Lemma host_parseAuthority (hb : list Z) :
  forallb hostByte hb = true -> url.parseAuthority_err hb = false.
Proof.
  intros H. unfold url.parseAuthority_err.
  rewrite (host_lastIndex 64 hb eq_refl H).
  unfold url.parseHost_err.
  rewrite (host_no_bracket hb H), (host_lastIndex 58 hb eq_refl H).
  apply host_unescape. exact H.
Qed.

Lemma parse_http_host (host : string) :
  forallb hostByte (bytes host) = true ->
  url.ParseRequestURI_err ("http://" ++ host) = false.
Proof.
  intros H. unfold url.ParseRequestURI_err.
  change (bytes ("http://" ++ host))
    with (104 :: 116 :: 116 :: 112 :: 58 :: 47 :: 47 :: bytes host).
  rewrite parse_err_tail; try discriminate.
  - unfold parse_tail.
    change (url.getScheme (104 :: 116 :: 116 :: 112 :: 58 :: 47 :: 47 :: bytes host))
      with (Some ([104; 116; 116; 112], 47 :: 47 :: bytes host)).
    cbv zeta. cbn [url.index Z.eqb Pos.eqb].
    rewrite (host_index 63 _ eq_refl H).
    cbn [url.hasPrefix Z.eqb Pos.eqb andb negb List.length Nat.eqb skipn].
    rewrite (host_index 47 _ eq_refl H).
    rewrite (host_parseAuthority _ H). reflexivity.
  - change (url.stringContainsCTLByte
              (104 :: 116 :: 116 :: 112 :: 58 :: 47 :: 47 :: bytes host))
      with (url.stringContainsCTLByte (bytes host)).
    apply host_ctl. exact H.
Qed.

(** X12.  [IsValidURL] returns false on every URL made of "http://" and a
    host name of letters, digits, hyphens and dots: such links, sources and
    enclosures (whatever length and type) are all reported invalid, by the
    earlier [Link.isValid] too. *)
Theorem IsValidURL_http_host (host : string) (length type : string) :
  forallb hostByte (bytes host) = true ->
  rss.IsValidURL ("http://" ++ host) = false
  /\ rss.Link_IsValid ("http://" ++ host) = false
  /\ rss.Source_IsValid {| rss.Source_URL := "http://" ++ host |} = false
  /\ rss.Enclosure_IsValid
       {| rss.Enclosure_URL := "http://" ++ host;
          rss.Enclosure_Length := length; rss.Enclosure_Type := type |} = false
  /\ pkg_rss.Link_isValid ("http://" ++ host) = false.
Proof.
  intros H. pose proof (parse_http_host host H) as E.
  unfold rss.Enclosure_IsValid, rss.Source_IsValid, rss.URL_IsValid,
    rss.Link_IsValid, pkg_rss.Link_isValid, rss.IsValidURL.
  cbn [rss.Source_URL rss.Enclosure_URL].
  rewrite E. repeat split.
Qed.

Lemma IsValidURL_http_host_witness :
  rss.IsValidURL "http://example.com" = false
  /\ rss.Link_IsValid "http://www.goupstate.com" = false.
Proof.
  split.
  - apply (IsValidURL_http_host "example.com" "" ""). reflexivity.
  - apply (IsValidURL_http_host "www.goupstate.com" "" ""). reflexivity.
Defined.


(** ** Dates in the layout *)

Lemma bytes_app (a b : string) : bytes (a ++ b) = (bytes a ++ bytes b)%list.
Proof. induction a as [|c a IH]; simpl; [reflexivity|]. rewrite IH. reflexivity. Qed.

Lemma byte_digit (n : Z) : 0 <= n <= 9 -> byte (digit n) = 48 + n.
Proof.
  intros H. unfold byte, digit.
  rewrite N_ascii_embedding by lia. lia.
Qed.

Lemma bytes_two (n : Z) :
  0 <= n <= 99 -> bytes (two n) = [48 + n / 10; 48 + n mod 10].
Proof.
  intros H. unfold two. simpl.
  rewrite !byte_digit; [reflexivity| |].
  - pose proof (Z.mod_pos_bound n 10). lia.
  - split; [apply Z.div_pos; lia|].
    apply Z.lt_succ_r. apply Z.div_lt_upper_bound; lia.
Qed.

Lemma isDigit_48 (k : Z) : 0 <= k <= 9 -> isDigit (48 + k) = true.
Proof. intros H. unfold isDigit. apply andb_true_iff. rewrite !Z.leb_le. lia. Qed.

Lemma div_mod_10 (n : Z) :
  0 <= n <= 99 -> 0 <= n / 10 <= 9 /\ 0 <= n mod 10 <= 9.
Proof.
  intros H. split.
  - split; [apply Z.div_pos; lia|].
    apply Z.lt_succ_r. apply Z.div_lt_upper_bound; lia.
  - pose proof (Z.mod_pos_bound n 10). lia.
Qed.

Lemma getnum_two (n : Z) (rest : list Z) (fixed : bool) :
  0 <= n <= 99 ->
  time.getnum (48 + n / 10 :: 48 + n mod 10 :: rest) fixed = Some (n, rest).
Proof.
  intros H. destruct (div_mod_10 n H) as [Hq Hr].
  unfold time.getnum. rewrite !isDigit_48 by assumption.
  f_equal. f_equal. pose proof (Z.div_mod n 10). lia.
Qed.

Lemma atoi_two (n : Z) :
  0 <= n <= 99 -> time.atoi [48 + n / 10; 48 + n mod 10] = Some n.
Proof.
  intros H. destruct (div_mod_10 n H) as [Hq Hr].
  unfold time.atoi.
  destruct (48 + n / 10 =? 45) eqn:E1; [apply Z.eqb_eq in E1; lia|].
  destruct (48 + n / 10 =? 43) eqn:E2; [apply Z.eqb_eq in E2; lia|].
  cbn [time.leadingInt]. rewrite !isDigit_48 by assumption.
  f_equal. pose proof (Z.div_mod n 10). lia.
Qed.

Lemma lookup_month (month : nat) (rest : list Z) :
  (month < 12)%nat ->
  time.lookup time.shortMonthNames 0
    (bytes (nth month time.shortMonthNames "") ++ rest)
  = Some (Z.of_nat month, rest).
Proof.
  intros H.
  do 12 (destruct month as [|month]; [reflexivity|]). lia.
Qed.

Lemma cutspace_month (month : nat) (rest : list Z) :
  (month < 12)%nat ->
  time.cutspace (bytes (nth month time.shortMonthNames "") ++ rest)
  = (bytes (nth month time.shortMonthNames "") ++ rest)%list.
Proof.
  intros H.
  do 12 (destruct month as [|month]; [reflexivity|]). lia.
Qed.

Lemma skip_space_space (rest : list Z) :
  time.skip_space (32 :: rest) = Some (time.cutspace rest).
Proof. reflexivity. Qed.

Lemma cutspace_digit (k : Z) (rest : list Z) :
  0 <= k <= 9 -> time.cutspace (48 + k :: rest) = 48 + k :: rest.
Proof.
  intros H. cbn [time.cutspace].
  destruct (48 + k =? 32) eqn:E; [apply Z.eqb_eq in E; lia|reflexivity].
Qed.

(** Parsing what [Format] prints succeeds. *)
Lemma parse_Format_RFC822_UTC (day : Z) (month : nat) (yy hour min : Z) :
  (month < 12)%nat ->
  0 <= yy <= 99 -> 0 <= hour <= 23 -> 0 <= min <= 59 ->
  1 <= day <= time.daysIn (Z.of_nat month + 1)
                 (if 69 <=? yy then yy + 1900 else yy + 2000) ->
  time.Parse_RFC822_err (Format_RFC822_UTC day month yy hour min) = false.
Proof.
  intros Hm Hy Hh Hmin Hd.
  assert (Hd99 : 0 <= day <= 99).
  { split; [lia|]. destruct Hd as [_ Hd]. revert Hd. unfold time.daysIn.
    destruct ((Z.of_nat month + 1 =? 2) && time.isLeap _); [lia|].
    replace (Z.to_nat (Z.of_nat month + 1 - 1)) with month by lia.
    do 12 (destruct month as [|month]; [simpl; lia|]). lia. }
  unfold time.Parse_RFC822_err, Format_RFC822_UTC.
  rewrite !bytes_app, !bytes_two by lia.
  destruct (div_mod_10 yy Hy) as [Hyq _].
  destruct (div_mod_10 hour ltac:(lia)) as [Hhq _].
  unfold time.parse_RFC822.
  cbn [app bytes]. change (byte " ") with 32. change (byte ":") with 58.
  change (byte "U") with 85. change (byte "T") with 84. change (byte "C") with 67.
  rewrite getnum_two by lia. cbn [time.then_].
  rewrite skip_space_space, (cutspace_month month _ Hm). cbn [time.then_].
  rewrite (lookup_month month _ Hm). cbn [time.then_].
  rewrite skip_space_space, (cutspace_digit _ _ Hyq). cbn [time.then_].
  cbn [List.length Nat.ltb Nat.leb firstn skipn].
  rewrite atoi_two by lia. cbn [time.then_].
  rewrite skip_space_space, (cutspace_digit _ _ Hhq). cbn [time.then_].
  rewrite getnum_two by lia. cbn [time.then_].
  destruct (hour <? 0) eqn:E1; [apply Z.ltb_lt in E1; lia|].
  destruct (24 <=? hour) eqn:E2; [apply Z.leb_le in E2; lia|].
  cbn [orb]. change (time.skip_byte 58 (58 :: ?r)) with (Some r).
  cbn [time.then_].
  rewrite getnum_two by lia. cbn [time.then_].
  destruct (min <? 0) eqn:E3; [apply Z.ltb_lt in E3; lia|].
  destruct (60 <=? min) eqn:E4; [apply Z.leb_le in E4; lia|].
  cbn [orb]. rewrite skip_space_space.
  change (time.cutspace [85; 84; 67]) with [85; 84; 67]. cbn [time.then_].
  change (url.hasPrefix [85; 84; 67] [85; 84; 67]) with true.
  cbn [skipn time.then_].
  destruct (day <? 1) eqn:E5; [apply Z.ltb_lt in E5; lia|].
  destruct (time.daysIn (Z.of_nat month + 1)
              (if 69 <=? yy then yy + 1900 else yy + 2000) <? day) eqn:E6;
    [apply Z.ltb_lt in E6; lia|].
  reflexivity.
Qed.

(** X13.  Every date that [Format] prints in the layout [time.RFC822] for a
    time in UTC is reported invalid by [IsValidRFC822], hence by
    [PubDate.IsValid] and [LastBuildDate.IsValid]: the date parses, and the
    check answers true only when parsing fails. *)
Theorem IsValidRFC822_rejects_Format (day : Z) (month : nat) (yy hour min : Z) :
  (month < 12)%nat ->
  0 <= yy <= 99 -> 0 <= hour <= 23 -> 0 <= min <= 59 ->
  1 <= day <= time.daysIn (Z.of_nat month + 1)
                 (if 69 <=? yy then yy + 1900 else yy + 2000) ->
  rss.IsValidRFC822 (Format_RFC822_UTC day month yy hour min) = false
  /\ rss.PubDate_IsValid (Format_RFC822_UTC day month yy hour min) = false
  /\ rss.LastBuildDate_IsValid (Format_RFC822_UTC day month yy hour min) = false
  /\ pkg_rss.IsValidRFC822 (Format_RFC822_UTC day month yy hour min) = false.
Proof.
  intros Hm Hy Hh Hmin Hd.
  pose proof (parse_Format_RFC822_UTC day month yy hour min Hm Hy Hh Hmin Hd) as E.
  unfold rss.PubDate_IsValid, rss.LastBuildDate_IsValid, rss.IsValidRFC822,
    pkg_rss.IsValidRFC822.
  rewrite E. repeat split.
Qed.

Lemma IsValidRFC822_rejects_Format_witness :
  Format_RFC822_UTC 6 8 9 16 20 = "06 Sep 09 16:20 UTC"
  /\ rss.IsValidRFC822 "06 Sep 09 16:20 UTC" = false.
Proof.
  split; [reflexivity|].
  apply (IsValidRFC822_rejects_Format 6 8 9 16 20); try lia.
  change (1 <= 6 <= 30). lia.
Defined.
